(** * cuddlespeak: command construction and dispatch

    A shallow embedding of [cuddlespeak/cuddlespeak.go], the command-line
    client that sends one control message to a Cuddlebot actuator over a
    serial line, together with the properties of its argument validation,
    actuator selection, response policy and resource handling.

    Layout:
    - [GoInt]: Go's [int] and the [uint16] conversion;
    - [fmt]: what [fmt.Fscanf] does with the verbs ["%d"] and ["%f"] on an
      argument token (Go's library as of Go 1.13 and later: under ["%f"] a
      hexadecimal mantissa and digit-separating underscores are accepted);
    - [msgtype]: the message values handed to the encoder;
    - [Proc]: the process monad (event trace, return / exit / panic);
    - [Cuddlespeak]: [main], [runcmd], [usage], [fatalUsage];
    - the theorems.

    Conventions. The command word is [flag.Arg(1)] and its arguments start
    at [flag.Arg(2)], as [runcmd] reads them; [flag.Arg(0)] is never looked
    at. The return values of the [msgtype.Write...] calls, of
    [conn.SetReadDeadline] and of [io.Copy] are dropped by the program, so
    each of these calls is one event of the trace and cannot fail the run. *)

From Stdlib Require Import ZArith String Ascii List Bool Lia.
From Stdlib Require Import Floats.SpecFloat.
From stdpp Require Import base list.
From Equations Require Import Equations.
Import ListNotations.

Local Open Scope string_scope.
Local Open Scope list_scope.
Local Open Scope Z_scope.

(** ** Go integers *)

Module GoInt.

(** [strconv.IntSize]: the width of [int] on the 64-bit platforms. *)
Definition intSize : Z := 64.

Definition minInt (bits : Z) : Z := - 2 ^ (bits - 1).
Definition maxInt (bits : Z) : Z := 2 ^ (bits - 1) - 1.

Definition fits (bits x : Z) : bool :=
  (minInt bits <=? x) && (x <=? maxInt bits).

(** The conversion [uint16(x)] of an [int]: the low 16 bits of the
    two's complement representation. *)
Definition uint16 (x : Z) : Z := x mod 65536.

End GoInt.

(** ** Scanning one argument token: [fmt.Fscanf(bytes.NewBufferString(tok), verb, &v)] *)

Module fmt.

Definition byte (c : ascii) : Z := Z.of_N (N_of_ascii c).

Definition is_digit (c : ascii) : bool := (48 <=? byte c) && (byte c <=? 57).
Definition is_sign (c : ascii) : bool := (byte c =? 43) || (byte c =? 45).

Definition digit_val (c : ascii) : Z := byte c - 48.

(** [ss.SkipSpace] with [nlIsSpace = false]: leading space runes are
    dropped, a newline is the scan error "unexpected newline". The space
    runes are those of [unicode.IsSpace], read through their UTF-8
    encodings. [None] is the scan error. *)
Fixpoint SkipSpace (s : string) : option string :=
  match s with
  | EmptyString => Some s
  | String c1 s1 =>
      let b1 := byte c1 in
      if b1 =? 10 then None
      else if ((9 <=? b1) && (b1 <=? 13)) || (b1 =? 32) then SkipSpace s1
      else
        match s1 with
        | EmptyString => Some s
        | String c2 s2 =>
            let b2 := byte c2 in
            if (b1 =? 194) && ((b2 =? 133) || (b2 =? 160)) then SkipSpace s2
            else
              match s2 with
              | EmptyString => Some s
              | String c3 s3 =>
                  let b3 := byte c3 in
                  if ((b1 =? 225) && (b2 =? 154) && (b3 =? 128))
                     || ((b1 =? 226) && (b2 =? 128)
                         && (((128 <=? b3) && (b3 <=? 138))
                             || (b3 =? 168) || (b3 =? 169) || (b3 =? 175)))
                     || ((b1 =? 226) && (b2 =? 129) && (b3 =? 159))
                     || ((b1 =? 227) && (b2 =? 128) && (b3 =? 128))
                  then SkipSpace s3
                  else Some s
              end
        end
  end.

(** [ss.accept(sign)]: an optional leading sign is moved to the token. *)
Definition accept_sign (s : string) : string * string :=
  match s with
  | String c s' => if is_sign c then (String c EmptyString, s') else (EmptyString, s)
  | EmptyString => (EmptyString, s)
  end.

(** [for s.accept(decimalDigits) {}]: the longest run of digits. *)
Fixpoint accept_digits (s : string) : string * string :=
  match s with
  | String c s' =>
      if is_digit c
      then let '(ds, rest) := accept_digits s' in (String c ds, rest)
      else (EmptyString, s)
  | EmptyString => (EmptyString, s)
  end.

(** The value of a run of decimal digits, most significant first. *)
Fixpoint digits_value_from (acc : Z) (ds : string) : Z :=
  match ds with
  | EmptyString => acc
  | String c ds' => digits_value_from (acc * 10 + digit_val c) ds'
  end.

Definition digits_value (ds : string) : Z := digits_value_from 0 ds.

(** [strconv.ParseInt(tok, 10, bitSize)] on a token made of an optional
    sign and a non-empty run of digits; [None] is the range error. *)
Definition ParseInt (neg : bool) (ds : string) (bitSize : Z) : option Z :=
  let v := if neg then - digits_value ds else digits_value ds in
  if GoInt.fits bitSize v then Some v else None.

(** [ss.scanInt('d', intBits)]. *)
Definition scanInt (s : string) : option Z :=
  match SkipSpace s with
  | None => None
  | Some EmptyString => None                      (* notEOF *)
  | Some s1 =>
      let '(sg, s2) := accept_sign s1 in
      let '(ds, _) := accept_digits s2 in
      match ds with
      | EmptyString => None                       (* "expected integer" *)
      | _ =>
          match ParseInt (String.eqb sg "-") ds 64 with
          | Some i => if GoInt.fits GoInt.intSize i then Some i else None
          | None => None
          end
      end
  end.

(** [fmt.Fscanf(bytes.NewBufferString(tok), "%d", &v)] with the result
    dropped: the new content of [v]. A failed scan stores nothing. *)
Definition Fscanf_d (tok : string) (v : Z) : Z :=
  match scanInt tok with
  | Some i => i
  | None => v
  end.

(** *** The verb ["%f"] *)

(** The scanner's state while it builds a token: the token buffer and the
    unread input. *)
Definition scan_state : Type := string * string.

(** [ss.accept(ok)]: consume the next byte into the buffer when it is one
    of the accepted characters. *)
Definition accept (ok : ascii -> bool) (st : scan_state) : bool * scan_state :=
  match snd st with
  | String c rest =>
      if ok c then (true, (fst st ++ String c EmptyString, rest))%string
      else (false, st)
  | EmptyString => (false, st)
  end.

(** [s.accept(a) && ...]: the next [accept] runs only after a success. *)
Definition and_accept (ok : ascii -> bool) (r : bool * scan_state)
  : bool * scan_state :=
  if fst r then accept ok (snd r) else r.

Fixpoint accept_all (ok : ascii -> bool) (buf rest : string) : scan_state :=
  match rest with
  | String c rest' =>
      if ok c then accept_all ok (buf ++ String c EmptyString)%string rest'
      else (buf, rest)
  | EmptyString => (buf, rest)
  end.

Definition one_of (cs : string) (c : ascii) : bool :=
  existsb (Ascii.eqb c) (list_ascii_of_string cs).

Definition is_hex_digit (c : ascii) : bool :=
  is_digit c || one_of "aAbBcCdDeEfF" c.

(** [ss.floatToken]: the spellings of NaN and infinity, or a sign, digits,
    a point, digits, an exponent letter, a sign and digits, each part
    optional. After ["0x"] the digits are hexadecimal and the exponent
    letter is p; an underscore counts as a digit. *)
Definition floatToken (s : string) : string :=
  let r := and_accept (one_of "nN")
             (and_accept (one_of "aA") (accept (one_of "nN") (EmptyString, s))) in
  if fst r then fst (snd r)
  else
    let st := snd (accept is_sign (snd r)) in
    let r := and_accept (one_of "fF")
               (and_accept (one_of "nN") (accept (one_of "iI") st)) in
    if fst r then fst (snd r)
    else
      let r := and_accept (one_of "xX") (accept (one_of "0") (snd r)) in
      let hex := fst r in
      let digits := fun c => (if hex then is_hex_digit c else is_digit c)
                             || one_of "_" c in
      let st := accept_all digits (fst (snd r)) (snd (snd r)) in
      let r := accept (one_of ".") st in
      let st := if fst r then accept_all digits (fst (snd r)) (snd (snd r))
                else snd r in
      let r := accept (one_of (if hex then "pP" else "eEpP")) st in
      let st := if fst r
                then let st := snd (accept is_sign (snd r)) in
                     accept_all (fun c => is_digit c || one_of "_" c) (fst st) (snd st)
                else snd r in
      fst st.

(** A [float32] value: IEEE 754 binary32, 24 bits of precision. *)
Definition float32 : Type := spec_float.
Definition float32_zero : float32 := S754_zero false.

(** The binary32 nearest to [m * 10 ^ e10] (ties to even). *)
Definition round32 (neg : bool) (m : positive) (e10 : Z) : float32 :=
  if 0 <=? e10
  then binary_round 24 128 neg (Z.to_pos (Zpos m * 10 ^ e10)) 0
  else
    let '(q, e', l) := SFdiv_core_binary 24 128 (Zpos m) 0 (10 ^ (- e10)) 0 in
    binary_round_aux 24 128 neg q e' l.

Definition lower (c : ascii) : ascii :=
  if (65 <=? byte c) && (byte c <=? 90)
  then ascii_of_N (N_of_ascii c + 32) else c.

Fixpoint to_lower (s : string) : string :=
  match s with
  | EmptyString => EmptyString
  | String c s' => String (lower c) (to_lower s')
  end.

(** [strconv]'s [special]: the spellings of infinity and NaN. *)
Definition special (s : string) : option float32 :=
  let l := to_lower s in
  if String.eqb l "nan" then Some S754_nan
  else if String.eqb l "inf" || String.eqb l "infinity"
          || String.eqb l "+inf" || String.eqb l "+infinity"
  then Some (S754_infinity false)
  else if String.eqb l "-inf" || String.eqb l "-infinity"
  then Some (S754_infinity true)
  else None.

Definition starts_digit (s : string) : bool :=
  match s with
  | String c _ => is_digit c
  | EmptyString => false
  end.

Definition hex_val (c : ascii) : Z :=
  if is_digit c then digit_val c else byte (lower c) - 87.

(** The mantissa loop of [strconv]'s [readFloat]: digits of the base,
    underscores, and one point. The result is the value of the digits read
    as an integer, the number of digits after the point, whether a digit
    was seen, and the unread text. *)
Fixpoint read_mantissa (hex sawdot : bool) (mant nfrac : Z) (sawdigits : bool)
    (s : string) : Z * Z * bool * string :=
  match s with
  | EmptyString => (mant, nfrac, sawdigits, s)
  | String c s' =>
      if one_of "_" c then read_mantissa hex sawdot mant nfrac sawdigits s'
      else if one_of "." c then
        if sawdot then (mant, nfrac, sawdigits, s)
        else read_mantissa hex true mant nfrac sawdigits s'
      else if is_digit c then
        read_mantissa hex sawdot (mant * (if hex then 16 else 10) + digit_val c)
          (if sawdot then nfrac + 1 else nfrac) true s'
      else if hex && is_hex_digit c then
        read_mantissa hex sawdot (mant * 16 + hex_val c)
          (if sawdot then nfrac + 1 else nfrac) true s'
      else (mant, nfrac, sawdigits, s)
  end.

(** The exponent loop of [readFloat]: digits and underscores; digits are no
    longer added once the value has reached 10000. *)
Fixpoint read_exponent (e : Z) (s : string) : Z * string :=
  match s with
  | EmptyString => (e, s)
  | String c s' =>
      if one_of "_" c then read_exponent e s'
      else if is_digit c
      then read_exponent (if e <? 10000 then e * 10 + digit_val c else e) s'
      else (e, s)
  end.

(** What [underscoreOK] saw last: the beginning, a digit or a base prefix,
    an underscore, anything else. *)
Inductive saw : Type := SawStart | SawDigit | SawUnderscore | SawOther.

Fixpoint underscore_scan (hex : bool) (last : saw) (s : string) : bool :=
  match s with
  | EmptyString => match last with SawUnderscore => false | _ => true end
  | String c s' =>
      if is_digit c || (hex && is_hex_digit c) then underscore_scan hex SawDigit s'
      else if one_of "_" c then
        match last with
        | SawDigit => underscore_scan hex SawUnderscore s'
        | _ => false
        end
      else
        match last with
        | SawUnderscore => false
        | _ => underscore_scan hex SawOther s'
        end
  end.

(** [strconv]'s [underscoreOK]: an underscore stands only between digits, or
    between a base prefix and a digit. *)
Definition underscoreOK (s : string) : bool :=
  let s := snd (accept_sign s) in
  match s with
  | String "0" (String x s') =>
      if one_of "bBoOxX" x then underscore_scan (one_of "xX" x) SawDigit s'
      else underscore_scan false SawStart s
  | _ => underscore_scan false SawStart s
  end.

(** [strconv.ParseFloat(tok, 32)] on the whole of [tok]: [None] is a syntax
    or a range error. *)
Definition ParseFloat32 (tok : string) : option float32 :=
  match special tok with
  | Some f => Some f
  | None =>
      let '(sg, s1) := accept_sign tok in
      let neg := String.eqb sg "-" in
      let '(hex, s2) :=
        match s1 with
        | String "0" (String x (String c r)) =>
            if one_of "xX" x then (true, String c r) else (false, s1)
        | _ => (false, s1)
        end in
      let '(mant, nfrac, sawdigits, s3) := read_mantissa hex false 0 0 false s2 in
      let finish (e : Z) : option float32 :=
        if underscoreOK tok then
          match mant with
          | Zpos m =>
              match (if hex then binary_round 24 128 neg m (e - 4 * nfrac)
                     else round32 neg m (e - nfrac)) with
              | S754_infinity _ => None            (* value out of range *)
              | f => Some f
              end
          | _ => Some (S754_zero neg)
          end
        else None in
      if negb sawdigits then None
      else
        match s3 with
        | EmptyString => if hex then None else finish 0
        | String c s4 =>
            if one_of (if hex then "pP" else "eE") c then
              let '(esg, s5) := accept_sign s4 in
              if starts_digit s5 then
                let '(e, s6) := read_exponent 0 s5 in
                match s6 with
                | EmptyString => finish (if String.eqb esg "-" then - e else e)
                | _ => None
                end
              else None
            else None
        end
  end.

(** [strconv.Atoi]: the whole text is an optionally signed decimal. *)
Definition Atoi (s : string) : option Z :=
  let '(sg, s1) := accept_sign s in
  let '(ds, rest) := accept_digits s1 in
  match ds, rest with
  | String _ _, EmptyString => ParseInt (String.eqb sg "-") ds GoInt.intSize
  | _, _ => None
  end.

(** Splitting a token at its first ['p']. *)
Fixpoint split_p (s : string) : option (string * string) :=
  match s with
  | EmptyString => None
  | String c s' =>
      if Ascii.eqb c "p" then Some (EmptyString, s')
      else match split_p s' with
           | Some (a, b) => Some (String c a, b)
           | None => None
           end
  end.

(** [float32(math.Ldexp(f, m))]. *)
Definition ldexp32 (f : float32) (m : Z) : float32 :=
  match f with
  | S754_finite s mx ex => binary_round 24 128 s mx (ex + m)
  | _ => f
  end.

(** [float32(ss.convertFloat(tok, 32))]: a power-of-two exponent after a
    decimal mantissa is evaluated here, the rest is [strconv.ParseFloat]. *)
Definition convertFloat (tok : string) : option float32 :=
  match split_p tok with
  | Some (mantissa, exponent) =>
      if existsb (one_of "xX") (list_ascii_of_string tok) then ParseFloat32 tok
      else
        match ParseFloat32 mantissa, Atoi exponent with
        | Some f, Some m => Some (ldexp32 f m)
        | _, _ => None
        end
  | None => ParseFloat32 tok
  end.

(** Scanning into a [*float32]. *)
Definition scanFloat32 (s : string) : option float32 :=
  match SkipSpace s with
  | None => None
  | Some EmptyString => None                      (* notEOF *)
  | Some s1 => convertFloat (floatToken s1)
  end.

(** [fmt.Fscanf(bytes.NewBufferString(tok), "%f", &v)] with the result
    dropped: the new content of [v]. *)
Definition Fscanf_f (tok : string) (v : float32) : float32 :=
  match scanFloat32 tok with
  | Some f => f
  | None => v
  end.

End fmt.

(** ** Package [msgtype]: the messages handed to the encoder *)

Module msgtype.

(** Modelled from the spec: the address constants [ADDR_RIBS], [ADDR_PURR],
    [ADDR_SPINE], [ADDR_HEAD_YAW] and [ADDR_HEAD_PITCH] of package
    [msgtype], which is not part of the sources at hand. An actuator
    address is an opaque identifier, exactly one of a fixed closed set
    {ribs, purr, spine, head-yaw, head-pitch}. *)
Inductive ActuatorAddress : Type :=
| ADDR_RIBS | ADDR_PURR | ADDR_SPINE | ADDR_HEAD_YAW | ADDR_HEAD_PITCH.

(** [msgtype.Setpoint]: the two [uint16] fields the client assigns. *)
Record Setpoint : Type := mkSetpoint { Duration : Z; Setpoint_ : Z }.

(** What each [msgtype.Write...] call is given besides the connection and
    the address. The encoding itself belongs to [msgtype]. *)
Inductive Message : Type :=
| SetPID (kp ki kd : fmt.float32)
| SetSetpoints (delay loop : Z) (setpoints : list Setpoint)
| Ping
| RunTests
| RequestPosition.

End msgtype.

(** ** The process: a trace of effects and the way control leaves *)

Module Proc.

Inductive logmsg : Type :=
| LogOpened (portname : string)
| LogParsedPID (kp ki kd : fmt.float32)
| LogSent (command : string) (addr : msgtype.ActuatorAddress).

Inductive event : Type :=
| EvUsage                                   (* usage(): help text on stderr *)
| EvLog (m : logmsg)                        (* log.Printf *)
| EvFatal (m : string)                      (* the message of log.Fatal *)
| EvOpen (portname : string)                (* serial.Open succeeded *)
| EvClose                                   (* port.Close() *)
| EvWrite (addr : msgtype.ActuatorAddress) (m : msgtype.Message)
                                            (* msgtype.Write...(conn, addr, ...) *)
| EvSetReadDeadline (d : Z)                 (* conn.SetReadDeadline(time.Now().Add(d)) *)
| EvCopy.                                   (* io.Copy(os.Stdout, conn) *)

(** How a piece of code ends: it returns, the process exits through
    [os.Exit], or it panics. *)
Inductive result (A : Type) : Type :=
| Done (a : A)
| Exit (status : Z)
| Panic.
Arguments Done {A} a.
Arguments Exit {A} status.
Arguments Panic {A}.

Definition t (A : Type) : Type := list event * result A.

Definition ret {A} (a : A) : t A := ([], Done a).

Definition bind {A B} (c : t A) (k : A -> t B) : t B :=
  match c with
  | (tr, Done a) => let '(tr', r) := k a in (tr ++ tr', r)
  | (tr, Exit n) => (tr, Exit n)
  | (tr, Panic) => (tr, Panic)
  end.

Definition emit (e : event) : t unit := ([e], Done tt).

(** [os.Exit(n)]: the process stops at once; deferred calls do not run. *)
Definition os_Exit {A} (n : Z) : t A := ([], Exit n).

Definition panic {A} : t A := ([], Panic).

(** [defer d] followed by [body]: [d] runs when the function returns or
    panics, and not when the process exits inside [body]. *)
Definition defer {A} (d : t unit) (body : t A) : t A :=
  match body with
  | (tr, Done a) => (tr ++ fst d, Done a)
  | (tr, Panic) => (tr ++ fst d, Panic)
  | (tr, Exit n) => (tr, Exit n)
  end.

Definition when (b : bool) (c : t unit) : t unit := if b then c else ret tt.

Definition trace {A} (c : t A) : list event := fst c.

(** The exit status of the process whose [main] ends with [r]. *)
Definition status {A} (c : t A) : Z :=
  match snd c with
  | Done _ => 0
  | Exit n => n
  | Panic => 2
  end.

End Proc.

Notation "x <- c1 ;; c2" := (Proc.bind c1 (fun x => c2))
  (at level 100, c1 at next level, c2 at level 200, right associativity).
Notation "c1 ;; c2" := (Proc.bind c1 (fun _ => c2))
  (at level 100, c2 at level 200, right associativity).

(** ** The program *)

Module Cuddlespeak.
Import msgtype Proc.

(** The flag variables after [flag.Parse]. *)
Record Flags : Type := mkFlags {
  debug : bool;
  help : bool;
  ribs : bool;
  purr : bool;
  spine : bool;
  headx : bool;
  heady : bool;
  portname : string
}.

(** One invocation: the flags, the positional arguments [flag.Args()], and
    whether the serial port can be opened. *)
Record Invocation : Type := mkInvocation {
  flags : Flags;
  args : list string;
  port_opens : bool
}.

(** [time.Duration] counts nanoseconds. *)
Definition Second : Z := 1000000000.
Definition Minute : Z := 60 * Second.

Definition usage : Proc.t unit := emit EvUsage.

Definition fatalUsage {A} : Proc.t A := usage ;; os_Exit 1.

(** [log.Fatal(os.Stderr, m)]: the line is printed and the process exits
    with status 1. The event keeps the text [m]; the printed line also
    renders the first operand, [os.Stderr], in front of it. *)
Definition log_Fatal {A} (m : string) : Proc.t A := emit (EvFatal m) ;; os_Exit 1.

Definition log_Printf (m : logmsg) : Proc.t unit := emit (EvLog m).

(** [s[j] = f(s[j])]: an index out of range panics. *)
Definition slice_update {A} (j : nat) (f : A -> A) (s : list A) : Proc.t (list A) :=
  match s !! j with
  | Some x => ret (<[j := f x]> s)
  | None => panic
  end.

Section Invocation.
Variable inv : Invocation.

(** [flag.NArg()] and [flag.Arg(i)]; a missing argument is the empty
    string. *)
Definition NArg : nat := length (args inv).
Definition Arg (i : nat) : string := default EmptyString (args inv !! i).

Definition is_debug : bool := debug (flags inv).

(** The loop [for i := 4; i < flag.NArg(); i += 2] of the setpoint
    command, from the index [i] on. *)
Equations? setpoint_loop (delayInt loopInt : Z) (i : nat)
           (setpoints : list Setpoint) : Proc.t (list Setpoint)
  by wf (NArg - i)%nat lt :=
  setpoint_loop delayInt loopInt i setpoints with lt_dec i NArg := {
    | left _ =>
        let duration := fmt.Fscanf_d (Arg i) 0 in
        let setpoint := fmt.Fscanf_d (Arg (i + 1)) 0 in
        when ((delayInt <? 0) || (loopInt <? 0))
          (log_Fatal "Error: duration and setpoint must be positive") ;;
        let j := ((i - 4) / 2)%nat in
        setpoints <- slice_update j
          (fun e => mkSetpoint (GoInt.uint16 duration) (Setpoint_ e)) setpoints ;;
        setpoints <- slice_update j
          (fun e => mkSetpoint (Duration e) (GoInt.uint16 setpoint)) setpoints ;;
        setpoint_loop delayInt loopInt (i + 2)%nat setpoints
    | right _ => ret setpoints }.
Proof. lia. Qed.

(** [runcmd(conn, addr)]: the [switch] on the command word, then the
    closing debug line. *)
Definition runcmd (addr : ActuatorAddress) : Proc.t unit :=
  (if String.eqb (Arg 1) "setpid" then
     when (NArg <? 5)%nat fatalUsage ;;
     let kp := fmt.Fscanf_f (Arg 2) fmt.float32_zero in
     let ki := fmt.Fscanf_f (Arg 3) fmt.float32_zero in
     let kd := fmt.Fscanf_f (Arg 4) fmt.float32_zero in
     when is_debug (log_Printf (LogParsedPID kp ki kd)) ;;
     emit (EvWrite addr (SetPID kp ki kd))
   else if String.eqb (Arg 1) "setpoint" then
     when (NArg <? 6)%nat fatalUsage ;;
     when (negb (NArg mod 2 =? 0)%nat)
       (log_Fatal "Error: duration and setpoint must be given in pairs") ;;
     let delayInt := fmt.Fscanf_d (Arg 2) 0 in
     let loopInt := fmt.Fscanf_d (Arg 3) 0 in
     when ((delayInt <? 0) || (loopInt <? 0))
       (log_Fatal "Error: delay and loop must be positive") ;;
     let delay := GoInt.uint16 delayInt in
     let loop := GoInt.uint16 loopInt in
     let setpoints := replicate ((NArg - 4) / 2)%nat (mkSetpoint 0 0) in
     setpoints <- setpoint_loop delayInt loopInt 4%nat setpoints ;;
     emit (EvWrite addr (SetSetpoints delay loop setpoints))
   else if String.eqb (Arg 1) "ping" then
     emit (EvWrite addr Ping) ;;
     emit (EvSetReadDeadline Second) ;;
     emit EvCopy
   else if String.eqb (Arg 1) "test" then
     emit (EvWrite addr RunTests) ;;
     emit (EvSetReadDeadline (Minute * 5)) ;;
     emit EvCopy
   else if String.eqb (Arg 1) "value" then
     emit (EvWrite addr RequestPosition) ;;
     emit (EvSetReadDeadline Second) ;;
     emit EvCopy
   else fatalUsage) ;;
  when is_debug (log_Printf (LogSent (Arg 1) addr)).

(** [main] from its argument check on, that is, once [flag.Parse] has
    returned with the flag variables set. ([flag.Parse] itself ends the
    process with status 2 on a command line it cannot parse; such command
    lines are no [Invocation].) When [serial.Open] fails, [log.Fatal] prints
    its error, for which the text "serial.Open" stands here. *)
Definition main : Proc.t unit :=
  (if (NArg <? 2)%nat then fatalUsage
   else if help (flags inv) then usage ;; os_Exit 0
   else ret tt) ;;
  (* open serial port *)
  (if port_opens inv
   then emit (EvOpen (portname (flags inv))) ;;
        when is_debug (log_Printf (LogOpened (portname (flags inv))))
   else log_Fatal "serial.Open") ;;
  defer (emit EvClose)
    (* run command *)
    (if ribs (flags inv) then runcmd ADDR_RIBS
     else if purr (flags inv) then runcmd ADDR_PURR
     else if spine (flags inv) then runcmd ADDR_SPINE
     else if headx (flags inv) then runcmd ADDR_HEAD_YAW
     else if heady (flags inv) then runcmd ADDR_HEAD_PITCH
     else ret tt).

End Invocation.

End Cuddlespeak.

(** ** Definitions used to state the properties *)

Import msgtype Proc Cuddlespeak.

(** Consecutive values taken two by two, in order: (duration, setpoint). *)
Fixpoint pair_up (vs : list Z) : list Setpoint :=
  match vs with
  | d :: s :: rest => mkSetpoint d s :: pair_up rest
  | _ => []
  end.

(** The closing debug line of [runcmd]. *)
Definition sent_log (inv : Invocation) (addr : ActuatorAddress) : list event :=
  if debug (flags inv) then [EvLog (LogSent (Arg inv 1) addr)] else [].

(** The debug line of the setpid command. *)
Definition parsed_log (inv : Invocation) (kp ki kd : fmt.float32) : list event :=
  if debug (flags inv) then [EvLog (LogParsedPID kp ki kd)] else [].

(** The debug line after the port has been opened. *)
Definition opened_log (inv : Invocation) : list event :=
  if debug (flags inv) then [EvLog (LogOpened (portname (flags inv)))] else [].

Definition is_log (e : event) : bool :=
  match e with
  | EvLog _ => true
  | _ => false
  end.

(** The response policy in the words of the specification: a function of
    the command variant alone. Ping and RequestPosition await a response for
    one second, RunSelfTest for five minutes, SetPID and SetSetpoints await
    none. *)
Definition ResponsePolicy (m : Message) : option Z :=
  match m with
  | SetPID _ _ _ => None
  | SetSetpoints _ _ _ => None
  | Ping => Some Second
  | RunTests => Some (5 * Minute)
  | RequestPosition => Some Second
  end.

(** The transport events of a policy: the deadline is set, then everything
    received is copied to standard output. *)
Definition await (p : option Z) : list event :=
  match p with
  | None => []
  | Some d => [EvSetReadDeadline d; EvCopy]
  end.

(** The command word of each message variant. *)
Definition command_name (m : Message) : string :=
  match m with
  | SetPID _ _ _ => "setpid"
  | SetSetpoints _ _ _ => "setpoint"
  | Ping => "ping"
  | RunTests => "test"
  | RequestPosition => "value"
  end.

(** The selector [main] acts on: the first one set, in the order of its
    [switch]. *)
Definition selected (f : Flags) : option ActuatorAddress :=
  if ribs f then Some ADDR_RIBS
  else if purr f then Some ADDR_PURR
  else if spine f then Some ADDR_SPINE
  else if headx f then Some ADDR_HEAD_YAW
  else if heady f then Some ADDR_HEAD_PITCH
  else None.


(** No message is handed to the encoder anywhere in a trace. *)
Definition nothing_written (tr : list event) : Prop :=
  forall a m, ~ In (EvWrite a m) tr.

(** The entries the setpoint command builds: the tokens after the loop
    count, two by two. *)
Definition setpoint_values (inv : Invocation) : list Setpoint :=
  pair_up (map (fun t => GoInt.uint16 (fmt.Fscanf_d t 0)) (drop 4 (args inv))).

(** [runcmd] without its loop: every way it ends, read off its branches. *)
Definition runcmd_summary (inv : Invocation) (addr : ActuatorAddress) : Proc.t unit :=
  if String.eqb (Arg inv 1) "setpid" then
    if (NArg inv <? 5)%nat then ([EvUsage], Exit 1)
    else
      let kp := fmt.Fscanf_f (Arg inv 2) fmt.float32_zero in
      let ki := fmt.Fscanf_f (Arg inv 3) fmt.float32_zero in
      let kd := fmt.Fscanf_f (Arg inv 4) fmt.float32_zero in
      (parsed_log inv kp ki kd ++ EvWrite addr (SetPID kp ki kd) :: sent_log inv addr,
       Done tt)
  else if String.eqb (Arg inv 1) "setpoint" then
    if (NArg inv <? 6)%nat then ([EvUsage], Exit 1)
    else if negb (NArg inv mod 2 =? 0)%nat
    then ([EvFatal "Error: duration and setpoint must be given in pairs"], Exit 1)
    else if (fmt.Fscanf_d (Arg inv 2) 0 <? 0) || (fmt.Fscanf_d (Arg inv 3) 0 <? 0)
    then ([EvFatal "Error: delay and loop must be positive"], Exit 1)
    else
      (EvWrite addr
         (SetSetpoints (GoInt.uint16 (fmt.Fscanf_d (Arg inv 2) 0))
            (GoInt.uint16 (fmt.Fscanf_d (Arg inv 3) 0)) (setpoint_values inv))
         :: sent_log inv addr, Done tt)
  else if String.eqb (Arg inv 1) "ping" then
    (EvWrite addr Ping :: EvSetReadDeadline Second :: EvCopy :: sent_log inv addr,
     Done tt)
  else if String.eqb (Arg inv 1) "test" then
    (EvWrite addr RunTests :: EvSetReadDeadline (Minute * 5) :: EvCopy
       :: sent_log inv addr, Done tt)
  else if String.eqb (Arg inv 1) "value" then
    (EvWrite addr RequestPosition :: EvSetReadDeadline Second :: EvCopy
       :: sent_log inv addr, Done tt)
  else ([EvUsage], Exit 1).

(** [main] without its binds, over [runcmd_summary]. *)
Definition main_summary (inv : Invocation) : Proc.t unit :=
  if (NArg inv <? 2)%nat then ([EvUsage], Exit 1)
  else if help (flags inv) then ([EvUsage], Exit 0)
  else if negb (port_opens inv) then ([EvFatal "serial.Open"], Exit 1)
  else
    match selected (flags inv) with
    | None => (EvOpen (portname (flags inv)) :: opened_log inv ++ [EvClose], Done tt)
    | Some addr =>
        match runcmd_summary inv addr with
        | (tr, Done _) =>
            (EvOpen (portname (flags inv)) :: opened_log inv ++ tr ++ [EvClose], Done tt)
        | (tr, Panic) =>
            (EvOpen (portname (flags inv)) :: opened_log inv ++ tr ++ [EvClose], Panic)
        | (tr, Exit n) => (EvOpen (portname (flags inv)) :: opened_log inv ++ tr, Exit n)
        end
    end.

Definition is_write (e : event) : bool :=
  match e with
  | EvWrite _ _ => true
  | _ => false
  end.

(** A trace without its debug lines. *)
Definition wire (tr : list event) : list event :=
  List.filter (fun e => negb (is_log e)) tr.

(** The same invocation with the [-debug] flag set to [b]. *)
Definition with_debug (b : bool) (inv : Invocation) : Invocation :=
  mkInvocation
    (mkFlags b (help (flags inv)) (ribs (flags inv)) (purr (flags inv))
       (spine (flags inv)) (headx (flags inv)) (heady (flags inv))
       (portname (flags inv)))
    (args inv) (port_opens inv).

(** A token that cannot begin a number under ["%d"]: empty, or starting
    with an ASCII letter. *)
Definition starts_no_integer (t : string) : bool :=
  match t with
  | EmptyString => true
  | String c _ =>
      ((65 <=? fmt.byte c) && (fmt.byte c <=? 90))
      || ((97 <=? fmt.byte c) && (fmt.byte c <=? 122))
  end.

(** The range of a [uint16]. *)
Definition in_uint16 (x : Z) : Prop := 0 <= x < 65536.

Definition entry_in_uint16 (e : Setpoint) : Prop :=
  in_uint16 (Duration e) /\ in_uint16 (Setpoint_ e).

(** The five command words. *)
Definition known_command (c : string) : bool :=
  String.eqb c "setpid" || String.eqb c "setpoint" || String.eqb c "ping"
  || String.eqb c "test" || String.eqb c "value".

Definition is_port_event (e : event) : bool :=
  match e with
  | EvOpen _ => true
  | EvClose => true
  | _ => false
  end.

Definition starts_with_digit (s : string) : bool :=
  match s with
  | String c _ => fmt.is_digit c
  | EmptyString => false
  end.





(** Sample invocations: [-ribs] alone, and no selector at all. *)
Definition sel_ribs : Flags :=
  mkFlags false false true false false false false "/dev/ttyUSB0".
Definition sel_none : Flags :=
  mkFlags false false false false false false false "/dev/ttyUSB0".

(** A token that is a plain decimal numeral: digits only, at least one. *)
Definition is_decimal (t : string) : bool :=
  match t with
  | EmptyString => false
  | _ => forallb fmt.is_digit (list_ascii_of_string t)
  end.

(** A token made of a decimal numeral that fits an [int], of value [n],
    followed by text that does not go on with a digit. *)
Definition numeral_then_text (t : string) (n : Z) : Prop :=
  exists d junk : string,
    t = (d ++ junk)%string
    /\ is_decimal d = true
    /\ fmt.digits_value d <= GoInt.maxInt GoInt.intSize
    /\ starts_with_digit junk = false
    /\ n = fmt.digits_value d.

(** ** Proof automation *)

(** Case analysis of every conditional of the goal. *)
Ltac split_ifs :=
  repeat match goal with
         | |- context [if ?c then _ else _] => destruct c eqn:?
         | |- context [match ?c with Some _ => _ | None => _ end] => destruct c eqn:?
         end.

(** Case analysis of a membership hypothesis in an explicit trace. *)
Ltac in_list H :=
  cbn in H;
  repeat match goal with
         | Hx : _ \/ _ |- _ => destruct Hx as [Hx|Hx]
         | Hx : False |- _ => destruct Hx
         | Hx : _ = EvWrite _ _ |- _ =>
             first [discriminate Hx | injection Hx as <- <-]
         end.

Example scan_ex1 : fmt.scanInt "26075" = Some 26075. Proof. reflexivity. Qed.
Example scan_ex2 : fmt.scanInt "-1" = Some (-1). Proof. reflexivity. Qed.
Example scan_ex3 : fmt.scanInt "forever" = None. Proof. reflexivity. Qed.
Example scan_ex4 : fmt.scanInt " 12abc" = Some 12. Proof. reflexivity. Qed.
Example scan_ex5 : fmt.scanInt "9223372036854775808" = None. Proof. reflexivity. Qed.
Example scan_ex6 : fmt.scanInt "9223372036854775807" = Some 9223372036854775807.
Proof. reflexivity. Qed.

Example fscan_ex1 : fmt.scanFloat32 "40.4" = Some (S754_finite false 10590618 (-18)).
Proof. vm_compute. reflexivity. Qed.
Example fscan_ex2 : fmt.scanFloat32 "1.0" = Some (S754_finite false 8388608 (-23)).
Proof. vm_compute. reflexivity. Qed.
Example fscan_ex3 : fmt.scanFloat32 "-1.0" = Some (S754_finite true 8388608 (-23)).
Proof. vm_compute. reflexivity. Qed.
Example fscan_ex4 : fmt.scanFloat32 "abc" = None.
Proof. vm_compute. reflexivity. Qed.
Example fscan_ex5 : fmt.scanFloat32 "1.5abc" = Some (S754_finite false 12582912 (-23)).
Proof. vm_compute. reflexivity. Qed.
Example fscan_ex6 : fmt.scanFloat32 "1e39" = None.
Proof. vm_compute. reflexivity. Qed.
Example fscan_ex7 : fmt.scanFloat32 "3.4028235e38" = Some (S754_finite false 16777215 104).
Proof. vm_compute. reflexivity. Qed.
Example fscan_ex8 : fmt.scanFloat32 "0.1" = Some (S754_finite false 13421773 (-27)).
Proof. vm_compute. reflexivity. Qed.
Example fscan_ex9 : fmt.scanFloat32 "1p3" = Some (S754_finite false 8388608 (-20)).
Proof. vm_compute. reflexivity. Qed.
Example fscan_ex10 : fmt.scanFloat32 "1e-46" = Some (S754_zero false).
Proof. vm_compute. reflexivity. Qed.
Example fscan_ex11 : fmt.scanFloat32 "inf" = Some (S754_infinity false).
Proof. vm_compute. reflexivity. Qed.
Example fscan_ex12 : fmt.scanFloat32 "1e" = None.
Proof. vm_compute. reflexivity. Qed.
Example fscan_ex13 : fmt.floatToken "-12.5e+3xyz" = "-12.5e+3"%string.
Proof. vm_compute. reflexivity. Qed.
Example fscan_ex14 : fmt.scanFloat32 "0x1p-2" = Some (S754_finite false 8388608 (-25)).
Proof. vm_compute. reflexivity. Qed.
Example fscan_ex15 : fmt.scanFloat32 "1_0.5" = Some (S754_finite false 11010048 (-20)).
Proof. vm_compute. reflexivity. Qed.
Example fscan_ex16 : fmt.scanFloat32 "1P3" = None.
Proof. vm_compute. reflexivity. Qed.
Example fscan_ex17 : fmt.scanFloat32 "1east" = None.
Proof. vm_compute. reflexivity. Qed.
Example fscan_ex18 : fmt.scanFloat32 "2.5px" = None.
Proof. vm_compute. reflexivity. Qed.
Example fscan_ex19 : fmt.scanFloat32 "0x1.8p1" = Some (S754_finite false 12582912 (-22)).
Proof. vm_compute. reflexivity. Qed.
Example fscan_ex20 : fmt.scanFloat32 "1__0" = None.
Proof. vm_compute. reflexivity. Qed.
Example fscan_ex21 : fmt.scanFloat32 "0x10" = None.
Proof. vm_compute. reflexivity. Qed.

Example main_ex1 :
  main (mkInvocation sel_ribs ["x"; "setpoint"; "0"; "forever"; "1000"; "26075"; "1000"; "0"]%string true)
  = ([EvOpen "/dev/ttyUSB0";
      EvWrite ADDR_RIBS (SetSetpoints 0 0 [mkSetpoint 1000 26075; mkSetpoint 1000 0]);
      EvClose], Done tt).
Proof. vm_compute. reflexivity. Qed.

(** ** Laws of the process monad *)

Lemma bind_ret_l {A B} (a : A) (k : A -> Proc.t B) : Proc.bind (ret a) k = k a.
Proof. unfold Proc.bind, ret. destruct (k a). reflexivity. Qed.

Lemma bind_when_false {B} (c : Proc.t unit) (k : unit -> Proc.t B) :
  Proc.bind (when false c) k = k tt.
Proof. apply bind_ret_l. Qed.

Lemma bind_emit {B} (e : event) (k : unit -> Proc.t B) :
  Proc.bind (emit e) k = (e :: fst (k tt), snd (k tt)).
Proof. unfold Proc.bind, emit. destruct (k tt). reflexivity. Qed.

(** ** The setpoint loop *)

Section Loop.
Variable inv : Invocation.

Lemma drop_two (i : nat) :
  (i + 1 < NArg inv)%nat ->
  drop i (args inv) = Arg inv i :: Arg inv (i + 1) :: drop (i + 2) (args inv).
Proof.
  unfold NArg, Arg. generalize (args inv) as l. induction i as [|i IH]; intros l Hl.
  - destruct l as [|a [|b l]]; simpl in *; try lia. rewrite drop_0. reflexivity.
  - destruct l as [|a l]; simpl in *; try lia. apply IH. lia.
Qed.

Lemma slice_update_middle {A} (f : A -> A) (l1 l2 : list A) (x : A) :
  slice_update (length l1) f (l1 ++ x :: l2) = ret (l1 ++ f x :: l2).
Proof.
  unfold slice_update.
  rewrite list_lookup_middle by reflexivity.
  rewrite insert_app_r_alt by lia. rewrite Nat.sub_diag. reflexivity.
Qed.

(** With a non-negative delay and loop the loop stores one entry per pair
    of arguments and returns. *)
Lemma setpoint_loop_run (d l : Z) (n : nat) :
  0 <= d -> 0 <= l -> NArg inv = (4 + 2 * n)%nat ->
  forall (m k : nat) (filled : list Setpoint),
    (k + m = n)%nat -> length filled = k ->
    setpoint_loop inv d l (4 + 2 * k) (filled ++ replicate m (mkSetpoint 0 0)) =
    ret (filled ++ pair_up (map (fun t => GoInt.uint16 (fmt.Fscanf_d t 0))
                                (drop (4 + 2 * k) (args inv)))).
Proof.
  intros Hd Hl Hn. induction m as [|m IH]; intros k filled Hk Hlen.
  - rewrite setpoint_loop_equation_1.
    destruct (lt_dec (4 + 2 * k) (NArg inv)) as [Hlt|Hge]; [lia|]. simpl.
    rewrite drop_ge by (unfold NArg in Hn; lia). reflexivity.
  - rewrite setpoint_loop_equation_1.
    destruct (lt_dec (4 + 2 * k) (NArg inv)) as [Hlt|Hge]; [|lia].
    cbn [setpoint_loop_unfold_clause_1 replicate].
    assert (Hneg : (d <? 0) || (l <? 0) = false).
    { apply orb_false_intro; apply Z.ltb_ge; assumption. }
    assert (Hj : ((4 + 2 * k - 4) / 2)%nat = length filled).
    { replace (4 + 2 * k - 4)%nat with (k * 2)%nat by lia.
      rewrite Nat.div_mul by lia. symmetry; assumption. }
    rewrite Hneg, bind_when_false. cbv zeta. rewrite Hj.
    rewrite slice_update_middle, bind_ret_l.
    rewrite slice_update_middle, bind_ret_l. cbn [Duration Setpoint_].
    rewrite (cons_middle _ filled), app_assoc.
    replace (4 + 2 * k + 2)%nat with (4 + 2 * S k)%nat by lia.
    rewrite IH by (try rewrite length_app; simpl; lia).
    rewrite (drop_two (4 + 2 * k)) by lia.
    replace (4 + 2 * k + 2)%nat with (4 + 2 * S k)%nat by lia.
    rewrite <- app_assoc. reflexivity.
Qed.

End Loop.

(** ** The setpoint command *)

Section Setpoint.
Variables (inv : Invocation) (addr : ActuatorAddress).
Variables (a0 : string) (toks : list string).
Hypothesis Hargs : args inv = a0 :: "setpoint"%string :: toks.

Lemma setpoint_NArg : NArg inv = (2 + length toks)%nat.
Proof. unfold NArg. rewrite Hargs. reflexivity. Qed.

Lemma setpoint_Arg1 : Arg inv 1 = "setpoint"%string.
Proof. unfold Arg. rewrite Hargs. reflexivity. Qed.

Lemma runcmd_setpoint_unfold :
  runcmd inv addr =
  ((when (NArg inv <? 6)%nat fatalUsage ;;
    when (negb (NArg inv mod 2 =? 0)%nat)
      (log_Fatal "Error: duration and setpoint must be given in pairs") ;;
    let delayInt := fmt.Fscanf_d (Arg inv 2) 0 in
    let loopInt := fmt.Fscanf_d (Arg inv 3) 0 in
    when ((delayInt <? 0) || (loopInt <? 0))
      (log_Fatal "Error: delay and loop must be positive") ;;
    setpoints <- setpoint_loop inv delayInt loopInt 4%nat
                   (replicate ((NArg inv - 4) / 2)%nat (mkSetpoint 0 0)) ;;
    emit (EvWrite addr (SetSetpoints (GoInt.uint16 delayInt) (GoInt.uint16 loopInt)
                          setpoints))) ;;
   when (is_debug inv) (log_Printf (LogSent (Arg inv 1) addr))).
Proof. unfold runcmd. rewrite setpoint_Arg1. reflexivity. Qed.

(** Fewer than four arguments after the command name: usage, exit 1. *)
Lemma runcmd_setpoint_short :
  (length toks < 4)%nat -> runcmd inv addr = ([EvUsage], Exit 1).
Proof.
  intros Hlen. rewrite runcmd_setpoint_unfold, setpoint_NArg.
  replace (2 + length toks <? 6)%nat with true by (symmetry; apply Nat.ltb_lt; lia).
  reflexivity.
Qed.

(** An odd number of arguments: fatal error, exit 1. *)
Lemma runcmd_setpoint_odd :
  (4 <= length toks)%nat -> Nat.Odd (length toks) ->
  runcmd inv addr =
  ([EvFatal "Error: duration and setpoint must be given in pairs"], Exit 1).
Proof.
  intros Hlen Hodd. rewrite runcmd_setpoint_unfold, setpoint_NArg.
  replace (2 + length toks <? 6)%nat with false by (symmetry; apply Nat.ltb_ge; lia).
  rewrite bind_when_false.
  replace ((2 + length toks) mod 2 =? 0)%nat with false; [reflexivity|].
  symmetry. apply Nat.eqb_neq. destruct Hodd as [q Hq]. rewrite Hq.
  replace (2 + (2 * q + 1))%nat with (1 + (q + 1) * 2)%nat by lia.
  rewrite Nat.Div0.mod_add. discriminate.
Qed.

(** A negative delay or loop count: fatal error, exit 1. *)
Lemma runcmd_setpoint_negative :
  (4 <= length toks)%nat -> Nat.Even (length toks) ->
  fmt.Fscanf_d (Arg inv 2) 0 < 0 \/ fmt.Fscanf_d (Arg inv 3) 0 < 0 ->
  runcmd inv addr = ([EvFatal "Error: delay and loop must be positive"], Exit 1).
Proof.
  intros Hlen [q Hq] Hneg. rewrite runcmd_setpoint_unfold, setpoint_NArg.
  replace (2 + length toks <? 6)%nat with false by (symmetry; apply Nat.ltb_ge; lia).
  rewrite bind_when_false.
  replace ((2 + length toks) mod 2 =? 0)%nat with true.
  2:{ symmetry. apply Nat.eqb_eq. rewrite Hq.
      replace (2 + 2 * q)%nat with (0 + (1 + q) * 2)%nat by lia.
      rewrite Nat.Div0.mod_add. reflexivity. }
  cbn [negb]. rewrite bind_when_false. cbv zeta.
  replace ((fmt.Fscanf_d (Arg inv 2) 0 <? 0) || (fmt.Fscanf_d (Arg inv 3) 0 <? 0))
    with true; [reflexivity|].
  symmetry. apply orb_true_iff.
  destruct Hneg; [left|right]; apply Z.ltb_lt; assumption.
Qed.

(** Otherwise the message is written: the delay, the loop count and one
    entry per pair of tokens, in the order of the tokens, each value
    converted to [uint16]. The sign of a duration or a setpoint plays no
    part. *)
Lemma runcmd_setpoint_ok :
  (4 <= length toks)%nat -> Nat.Even (length toks) ->
  0 <= fmt.Fscanf_d (Arg inv 2) 0 -> 0 <= fmt.Fscanf_d (Arg inv 3) 0 ->
  runcmd inv addr =
  (EvWrite addr
     (SetSetpoints (GoInt.uint16 (fmt.Fscanf_d (Arg inv 2) 0))
        (GoInt.uint16 (fmt.Fscanf_d (Arg inv 3) 0))
        (pair_up (map (fun t => GoInt.uint16 (fmt.Fscanf_d t 0)) (drop 2 toks))))
     :: sent_log inv addr, Done tt).
Proof.
  intros Hlen [q Hq] Hd Hl. rewrite runcmd_setpoint_unfold.
  pose proof setpoint_NArg as HN. rewrite HN.
  replace (2 + length toks <? 6)%nat with false by (symmetry; apply Nat.ltb_ge; lia).
  rewrite bind_when_false.
  replace ((2 + length toks) mod 2 =? 0)%nat with true.
  2:{ symmetry. apply Nat.eqb_eq. rewrite Hq.
      replace (2 + 2 * q)%nat with (0 + (1 + q) * 2)%nat by lia.
      rewrite Nat.Div0.mod_add. reflexivity. }
  cbn [negb]. rewrite bind_when_false. cbv zeta.
  replace ((fmt.Fscanf_d (Arg inv 2) 0 <? 0) || (fmt.Fscanf_d (Arg inv 3) 0 <? 0))
    with false
    by (symmetry; apply orb_false_intro; apply Z.ltb_ge; assumption).
  rewrite bind_when_false.
  assert (Hn : NArg inv = (4 + 2 * (q - 1))%nat) by lia.
  replace ((2 + length toks - 4) / 2)%nat with (q - 1)%nat.
  2:{ replace (2 + length toks - 4)%nat with ((q - 1) * 2)%nat by lia.
      rewrite Nat.div_mul by lia. reflexivity. }
  pose proof (setpoint_loop_run inv _ _ (q - 1) Hd Hl Hn (q - 1) 0 []) as Hloop.
  cbn [app] in Hloop. replace (4 + 2 * 0)%nat with 4%nat in Hloop by lia.
  rewrite Hloop by (simpl; lia). rewrite bind_ret_l.
  rewrite Hargs. cbn [drop]. rewrite bind_emit.
  unfold sent_log, is_debug, when. destruct (debug (flags inv)); reflexivity.
Qed.

End Setpoint.

(** ** Decimal numerals under the verb ["%d"] *)

Lemma digit_not_sign (c : ascii) : fmt.is_digit c = true -> fmt.is_sign c = false.
Proof.
  unfold fmt.is_digit, fmt.is_sign. intros H.
  apply andb_true_iff in H as [H1 H2]. apply Z.leb_le in H1.
  apply orb_false_intro; apply Z.eqb_neq; lia.
Qed.

Lemma SkipSpace_digit (c : ascii) (s : string) :
  fmt.is_digit c = true -> fmt.SkipSpace (String c s) = Some (String c s).
Proof.
  unfold fmt.is_digit. intros H.
  apply andb_true_iff in H as [H1 H2]. apply Z.leb_le in H1, H2.
  cbn [fmt.SkipSpace]. cbv zeta.
  replace (fmt.byte c =? 10) with false by (symmetry; apply Z.eqb_neq; lia).
  replace (fmt.byte c <=? 13) with false by (symmetry; apply Z.leb_gt; lia).
  replace (fmt.byte c =? 32) with false by (symmetry; apply Z.eqb_neq; lia).
  replace (fmt.byte c =? 194) with false by (symmetry; apply Z.eqb_neq; lia).
  replace (fmt.byte c =? 225) with false by (symmetry; apply Z.eqb_neq; lia).
  replace (fmt.byte c =? 226) with false by (symmetry; apply Z.eqb_neq; lia).
  replace (fmt.byte c =? 227) with false by (symmetry; apply Z.eqb_neq; lia).
  rewrite andb_false_r. cbn [orb andb].
  destruct s as [|c2 [|c3 s3]]; reflexivity.
Qed.

Lemma accept_digits_all (s : string) :
  forallb fmt.is_digit (list_ascii_of_string s) = true ->
  fmt.accept_digits s = (s, EmptyString).
Proof.
  induction s as [|c s IH]; [reflexivity|]. cbn [list_ascii_of_string forallb].
  intros H. apply andb_true_iff in H as [Hc Hs].
  cbn [fmt.accept_digits]. rewrite Hc, (IH Hs). reflexivity.
Qed.

Lemma digits_value_from_nonneg (s : string) :
  forallb fmt.is_digit (list_ascii_of_string s) = true ->
  forall acc, 0 <= acc -> 0 <= fmt.digits_value_from acc s.
Proof.
  induction s as [|c s IH]; intros H acc Hacc; [assumption|].
  cbn [list_ascii_of_string forallb] in H. apply andb_true_iff in H as [Hc Hs].
  cbn [fmt.digits_value_from]. apply (IH Hs).
  unfold fmt.is_digit in Hc. apply andb_true_iff in Hc as [H1 _].
  apply Z.leb_le in H1. unfold fmt.digit_val. lia.
Qed.

(** A decimal numeral that fits an [int] is scanned to its value. *)
Lemma scanInt_decimal (t : string) :
  is_decimal t = true ->
  fmt.digits_value t <= GoInt.maxInt GoInt.intSize ->
  fmt.scanInt t = Some (fmt.digits_value t).
Proof.
  intros Hdec Hmax. destruct t as [|c t]; [discriminate|].
  unfold is_decimal in Hdec.
  pose proof Hdec as Hall.
  cbn [list_ascii_of_string forallb] in Hdec. apply andb_true_iff in Hdec as [Hc Ht].
  unfold fmt.scanInt. rewrite (SkipSpace_digit c t Hc).
  unfold fmt.accept_sign. rewrite (digit_not_sign c Hc).
  rewrite (accept_digits_all _ Hall).
  unfold fmt.ParseInt. cbn [String.eqb].
  pose proof (digits_value_from_nonneg _ Hall 0 (Z.le_refl 0)) as Hnn.
  fold (fmt.digits_value (String c t)) in Hnn.
  assert (Hfit : GoInt.fits 64 (fmt.digits_value (String c t)) = true).
  { unfold GoInt.fits. apply andb_true_iff. split; apply Z.leb_le.
    - unfold GoInt.minInt. simpl. lia.
    - exact Hmax. }
  rewrite Hfit. unfold GoInt.intSize. rewrite Hfit. reflexivity.
Qed.

Lemma Fscanf_d_decimal (t : string) (v : Z) :
  is_decimal t = true ->
  fmt.digits_value t <= GoInt.maxInt GoInt.intSize ->
  fmt.Fscanf_d t v = fmt.digits_value t.
Proof. intros H1 H2. unfold fmt.Fscanf_d. rewrite scanInt_decimal by assumption. reflexivity. Qed.

Lemma Fscanf_d_scanned (t : string) (n v : Z) :
  fmt.scanInt t = Some n -> fmt.Fscanf_d t v = n.
Proof. unfold fmt.Fscanf_d. intros ->. reflexivity. Qed.

Lemma pair_up_length (vs : list Z) : length (pair_up vs) = (length vs / 2)%nat.
Proof.
  assert (H : forall n (l : list Z), (length l <= n)%nat ->
                                     length (pair_up l) = (length l / 2)%nat).
  { induction n as [|n IH]; intros l Hl.
    - destruct l; [reflexivity | simpl in Hl; lia].
    - destruct l as [|d [|s rest]]; try reflexivity.
      cbn [pair_up length]. rewrite IH by (simpl in Hl; lia).
      change (S (S (length rest))) with (1 * 2 + length rest)%nat.
      rewrite Nat.div_add_l by lia. reflexivity. }
  apply (H (length vs)). lia.
Qed.

Lemma scanned_values (toks : list string) (ns : list Z) :
  Forall2 (fun t n => fmt.scanInt t = Some n /\ 0 <= n) toks ns ->
  map (fun t => GoInt.uint16 (fmt.Fscanf_d t 0)) toks = map GoInt.uint16 ns.
Proof.
  induction 1 as [|t n toks ns [Ht _] _ IH]; [reflexivity|].
  cbn [map]. rewrite (Fscanf_d_scanned t n 0 Ht), IH. reflexivity.
Qed.

Lemma exit_nothing_written {A} (e : event) (n : Z) :
  (forall a m, e <> EvWrite a m) -> nothing_written (trace (A := A) ([e], Exit n)).
Proof. intros He a m [Hin|[]]. exact (He a m Hin). Qed.

(** ** The setpoint command: validation *)

(** C5. For the setpoint command, an even number (at least four) of
    arguments after the command name whose tokens all scan as non-negative
    integers passes validation: the message is written, it has
    (count - 2) / 2 entries, and the entries are the pairs of values in the
    order of the tokens (as [uint16]). An odd number of arguments, or fewer
    than four, fails validation: exit status 1 and nothing written. *)
Theorem setpoint_validation (inv : Invocation) (addr : ActuatorAddress)
    (a0 : string) (toks : list string) :
  args inv = a0 :: "setpoint"%string :: toks ->
  (forall ns : list Z,
      (4 <= length toks)%nat -> Nat.Even (length toks) ->
      Forall2 (fun t n => fmt.scanInt t = Some n /\ 0 <= n) toks ns ->
      exists entries,
        runcmd inv addr =
          (EvWrite addr (SetSetpoints (GoInt.uint16 (nth 0 ns 0))
                           (GoInt.uint16 (nth 1 ns 0)) entries)
             :: sent_log inv addr, Done tt)
        /\ entries = pair_up (map GoInt.uint16 (drop 2 ns))
        /\ length entries = ((length toks - 2) / 2)%nat)
  /\ (Nat.Odd (length toks) \/ (length toks < 4)%nat ->
      status (runcmd inv addr) = 1 /\ nothing_written (trace (runcmd inv addr))).
Proof.
  intros Hargs. split.
  - intros ns Hlen Heven Hscan.
    pose proof (Forall2_length _ _ _ Hscan) as Hlens.
    pose proof (scanned_values _ _ Hscan) as Hvals.
    destruct Hscan as [|t0 n0 toks1 ns1 [H0 Hn0] Hscan]; [simpl in Hlen; lia|].
    destruct Hscan as [|t1 n1 toks2 ns2 [H1 Hn1] Hscan]; [simpl in Hlen; lia|].
    exists (pair_up (map GoInt.uint16 ns2)).
    assert (Hd : fmt.Fscanf_d (Arg inv 2) 0 = n0).
    { unfold Arg. rewrite Hargs. cbn. apply Fscanf_d_scanned, H0. }
    assert (Hl : fmt.Fscanf_d (Arg inv 3) 0 = n1).
    { unfold Arg. rewrite Hargs. cbn. apply Fscanf_d_scanned, H1. }
    split; [|split].
    + rewrite (runcmd_setpoint_ok inv addr a0 _ Hargs Hlen Heven)
        by (rewrite ?Hd, ?Hl; assumption).
      rewrite Hd, Hl. cbn [nth skipn].
      rewrite drop_0. cbn [map] in Hvals. injection Hvals as _ _ Hvals. rewrite Hvals. reflexivity.
    + reflexivity.
    + rewrite pair_up_length, length_map. cbn [length] in *.
      replace (S (S (length toks2)) - 2)%nat with (length ns2) by lia. reflexivity.
  - intros [Hodd|Hshort].
    + destruct (Nat.lt_ge_cases (length toks) 4) as [Hlt|Hge].
      * rewrite (runcmd_setpoint_short inv addr a0 _ Hargs Hlt).
        split; [reflexivity | apply exit_nothing_written; discriminate].
      * rewrite (runcmd_setpoint_odd inv addr a0 _ Hargs Hge Hodd).
        split; [reflexivity | apply exit_nothing_written; discriminate].
    + rewrite (runcmd_setpoint_short inv addr a0 _ Hargs Hshort).
      split; [reflexivity | apply exit_nothing_written; discriminate].
Qed.

Lemma setpoint_validation_witness :
  exists entries,
    runcmd (mkInvocation sel_ribs
              ["x"; "setpoint"; "0"; "3"; "1000"; "26075"; "1000"; "0"]%string true)
           ADDR_RIBS =
      ([EvWrite ADDR_RIBS (SetSetpoints 0 3 entries)], Done tt)
    /\ entries = [mkSetpoint 1000 26075; mkSetpoint 1000 0]
    /\ length entries = 2%nat.
Proof.
  refine (proj1 (setpoint_validation
                   (mkInvocation sel_ribs
                      ["x"; "setpoint"; "0"; "3"; "1000"; "26075"; "1000"; "0"]%string true)
                   ADDR_RIBS "x"%string _ eq_refl)
                [0; 3; 1000; 26075; 1000; 0] _ _ _).
  - simpl. lia.
  - exists 3%nat. reflexivity.
  - repeat constructor; vm_compute; congruence.
Defined.

(** ** The setpoint command: the range of the values *)

Lemma decimal_values (toks : list string) :
  Forall (fun t => is_decimal t = true
                   /\ fmt.digits_value t <= GoInt.maxInt GoInt.intSize) toks ->
  map (fun t => GoInt.uint16 (fmt.Fscanf_d t 0)) toks
  = map (fun t => fmt.digits_value t mod 65536) toks.
Proof.
  induction 1 as [|t toks [Hdec Hmax] _ IH]; [reflexivity|].
  cbn [map]. rewrite (Fscanf_d_decimal t 0 Hdec Hmax), IH. reflexivity.
Qed.

Lemma decimal_nonneg (t : string) : is_decimal t = true -> 0 <= fmt.digits_value t.
Proof.
  intros Hdec. destruct t as [|c t]; [discriminate|].
  apply digits_value_from_nonneg; [exact Hdec | lia].
Qed.


(** ** The setpoint command: what the code does not check *)

(** C1 (the code against the claim). The token "forever" is not told apart
    from a number: its scan fails, the loop variable keeps its zero value and
    the message carries the loop count 0, exactly as for the token "0". *)
Theorem forever_is_loop_zero (inv : Invocation) (addr : ActuatorAddress)
    (a0 td : string) (rest : list string) :
  args inv = a0 :: "setpoint"%string :: td :: "forever"%string :: rest ->
  (2 <= length rest)%nat -> Nat.Even (length rest) ->
  0 <= fmt.Fscanf_d td 0 ->
  runcmd inv addr =
    (EvWrite addr
       (SetSetpoints (GoInt.uint16 (fmt.Fscanf_d td 0)) 0
          (pair_up (map (fun t => GoInt.uint16 (fmt.Fscanf_d t 0)) rest)))
       :: sent_log inv addr, Done tt)
  /\ GoInt.uint16 (fmt.Fscanf_d "forever" 0) = GoInt.uint16 (fmt.Fscanf_d "0" 0).
Proof.
  intros Hargs Hlen [q Hq] Hd. split; [|reflexivity].
  assert (HA2 : Arg inv 2 = td) by (unfold Arg; rewrite Hargs; reflexivity).
  assert (HA3 : Arg inv 3 = "forever"%string) by (unfold Arg; rewrite Hargs; reflexivity).
  rewrite (runcmd_setpoint_ok inv addr a0 _ Hargs).
  - rewrite HA2, HA3. cbn [skipn]. rewrite drop_0. reflexivity.
  - cbn [length]. lia.
  - exists (S q). cbn [length]. lia.
  - rewrite HA2. exact Hd.
  - rewrite HA3. vm_compute. discriminate.
Qed.

Lemma forever_is_loop_zero_witness :
  runcmd (mkInvocation sel_ribs
            ["x"; "setpoint"; "0"; "forever"; "1000"; "26075"; "1000"; "0"]%string true)
         ADDR_RIBS =
    ([EvWrite ADDR_RIBS (SetSetpoints 0 0 [mkSetpoint 1000 26075; mkSetpoint 1000 0])],
     Done tt)
  /\ GoInt.uint16 (fmt.Fscanf_d "forever" 0) = GoInt.uint16 (fmt.Fscanf_d "0" 0).
Proof.
  refine (forever_is_loop_zero
            (mkInvocation sel_ribs
               ["x"; "setpoint"; "0"; "forever"; "1000"; "26075"; "1000"; "0"]%string true)
            ADDR_RIBS "x"%string "0"%string
            ["1000"; "26075"; "1000"; "0"]%string eq_refl _ _ _).
  - simpl. lia.
  - exists 2%nat. reflexivity.
  - vm_compute. discriminate.
Defined.

(** C2 (the code against the claim). The check inside the loop tests the
    delay and the loop count a second time and never the pair at hand: with
    a valid argument count and a non-negative delay and loop count, an
    argument list that holds a negative duration or setpoint token is not
    rejected. The message is written, the negative value wrapped by the
    conversion to [uint16], and [runcmd] returns. *)
Theorem negative_pair_is_written (inv : Invocation) (addr : ActuatorAddress)
    (a0 td tl : string) (rest : list string) (t : string) (n : Z) :
  args inv = a0 :: "setpoint"%string :: td :: tl :: rest ->
  (2 <= length rest)%nat -> Nat.Even (length rest) ->
  0 <= fmt.Fscanf_d td 0 -> 0 <= fmt.Fscanf_d tl 0 ->
  In t rest -> fmt.scanInt t = Some n -> n < 0 ->
  runcmd inv addr =
    (EvWrite addr
       (SetSetpoints (GoInt.uint16 (fmt.Fscanf_d td 0)) (GoInt.uint16 (fmt.Fscanf_d tl 0))
          (pair_up (map (fun t => GoInt.uint16 (fmt.Fscanf_d t 0)) rest)))
       :: sent_log inv addr, Done tt)
  /\ In (GoInt.uint16 n) (map (fun t => GoInt.uint16 (fmt.Fscanf_d t 0)) rest)
  /\ status (runcmd inv addr) = 0.
Proof.
  intros Hargs Hlen [q Hq] Hd Hl Hin Ht Hn.
  assert (HA2 : Arg inv 2 = td) by (unfold Arg; rewrite Hargs; reflexivity).
  assert (HA3 : Arg inv 3 = tl) by (unfold Arg; rewrite Hargs; reflexivity).
  assert (Hrun : runcmd inv addr =
    (EvWrite addr
       (SetSetpoints (GoInt.uint16 (fmt.Fscanf_d td 0)) (GoInt.uint16 (fmt.Fscanf_d tl 0))
          (pair_up (map (fun t => GoInt.uint16 (fmt.Fscanf_d t 0)) rest)))
       :: sent_log inv addr, Done tt)).
  { rewrite (runcmd_setpoint_ok inv addr a0 _ Hargs).
    - rewrite HA2, HA3. cbn [skipn]. rewrite drop_0. reflexivity.
    - cbn [length]. lia.
    - exists (S q). cbn [length]. lia.
    - rewrite HA2. exact Hd.
    - rewrite HA3. exact Hl. }
  split; [exact Hrun | split].
  - rewrite <- (Fscanf_d_scanned t n 0 Ht).
    apply (in_map (fun t => GoInt.uint16 (fmt.Fscanf_d t 0))), Hin.
  - rewrite Hrun. reflexivity.
Qed.

Lemma negative_pair_is_written_witness :
  runcmd (mkInvocation sel_ribs ["x"; "setpoint"; "0"; "1"; "-1"; "5"]%string true)
         ADDR_RIBS =
    ([EvWrite ADDR_RIBS (SetSetpoints 0 1 [mkSetpoint 65535 5])], Done tt)
  /\ In 65535 [65535; 5]
  /\ status (runcmd (mkInvocation sel_ribs
                       ["x"; "setpoint"; "0"; "1"; "-1"; "5"]%string true)
                    ADDR_RIBS) = 0.
Proof.
  refine (negative_pair_is_written
            (mkInvocation sel_ribs ["x"; "setpoint"; "0"; "1"; "-1"; "5"]%string true)
            ADDR_RIBS "x"%string "0"%string "1"%string ["-1"; "5"]%string
            "-1"%string (-1) eq_refl _ _ _ _ _ eq_refl _).
  - simpl. lia.
  - exists 1%nat. reflexivity.
  - vm_compute. discriminate.
  - vm_compute. discriminate.
  - left. reflexivity.
  - lia.
Defined.

(** ** The setpid command *)

Section Setpid.
Variables (inv : Invocation) (addr : ActuatorAddress).
Variables (a0 : string) (toks : list string).
Hypothesis Hargs : args inv = a0 :: "setpid"%string :: toks.

Lemma setpid_Arg1 : Arg inv 1 = "setpid"%string.
Proof. unfold Arg. rewrite Hargs. reflexivity. Qed.

Lemma runcmd_setpid_unfold :
  runcmd inv addr =
  ((when (NArg inv <? 5)%nat fatalUsage ;;
    let kp := fmt.Fscanf_f (Arg inv 2) fmt.float32_zero in
    let ki := fmt.Fscanf_f (Arg inv 3) fmt.float32_zero in
    let kd := fmt.Fscanf_f (Arg inv 4) fmt.float32_zero in
    when (is_debug inv) (log_Printf (LogParsedPID kp ki kd)) ;;
    emit (EvWrite addr (SetPID kp ki kd))) ;;
   when (is_debug inv) (log_Printf (LogSent (Arg inv 1) addr))).
Proof. unfold runcmd. rewrite setpid_Arg1. reflexivity. Qed.

(** Fewer than three arguments after the command name: usage, exit 1. *)
Lemma runcmd_setpid_short :
  (length toks < 3)%nat -> runcmd inv addr = ([EvUsage], Exit 1).
Proof.
  intros Hlen. rewrite runcmd_setpid_unfold. unfold NArg. rewrite Hargs.
  cbn [length].
  replace (S (S (length toks)) <? 5)%nat with true
    by (symmetry; apply Nat.ltb_lt; lia).
  reflexivity.
Qed.

(** Three or more: the message is built from the first three tokens, each
    scanned with ["%f"] into a variable that starts at zero. *)
Lemma runcmd_setpid_ok (k1 k2 k3 : string) (extra : list string) :
  toks = k1 :: k2 :: k3 :: extra ->
  runcmd inv addr =
  (parsed_log inv (fmt.Fscanf_f k1 fmt.float32_zero)
     (fmt.Fscanf_f k2 fmt.float32_zero) (fmt.Fscanf_f k3 fmt.float32_zero)
   ++ EvWrite addr (SetPID (fmt.Fscanf_f k1 fmt.float32_zero)
                      (fmt.Fscanf_f k2 fmt.float32_zero)
                      (fmt.Fscanf_f k3 fmt.float32_zero))
   :: sent_log inv addr, Done tt).
Proof.
  intros Htoks. rewrite runcmd_setpid_unfold. unfold NArg, Arg.
  rewrite Hargs, Htoks. cbn [length lookup list_lookup default].
  replace (S (S (S (S (S (length extra))))) <? 5)%nat with false
    by (symmetry; apply Nat.ltb_ge; lia).
  rewrite bind_when_false.
  unfold parsed_log, sent_log, is_debug, Arg. rewrite Hargs.
  destruct (debug (flags inv)); reflexivity.
Qed.

End Setpid.

(** ** Every way [runcmd] can end *)

Lemma Arg1_shape (inv : Invocation) (c : string) :
  Arg inv 1 = c -> c <> EmptyString ->
  exists a0 toks, args inv = a0 :: c :: toks.
Proof.
  unfold Arg. intros H Hc.
  destruct (args inv) as [|a0 [|c' toks]]; cbn in H; try congruence.
  exists a0, toks. congruence.
Qed.

Lemma runcmd_cases (inv : Invocation) (addr : ActuatorAddress) :
  (exists m pre,
      runcmd inv addr =
        (pre ++ EvWrite addr m :: await (ResponsePolicy m) ++ sent_log inv addr, Done tt)
      /\ forallb is_log pre = true
      /\ command_name m = Arg inv 1)
  \/ (exists e,
         runcmd inv addr = ([e], Exit 1)
         /\ (e = EvUsage \/ exists msg, e = EvFatal msg)).
Proof.
  destruct (String.eqb_spec (Arg inv 1) "setpid") as [Hpid|Hpid].
  { destruct (Arg1_shape inv _ Hpid) as (a0 & toks & Hargs); [discriminate|].
    destruct (Nat.lt_ge_cases (length toks) 3) as [Hlt|Hge].
    - right. exists EvUsage. split; [|left; reflexivity].
      apply (runcmd_setpid_short inv addr a0 toks Hargs Hlt).
    - left. destruct toks as [|k1 [|k2 [|k3 extra]]]; cbn in Hge; try lia.
      eexists (SetPID _ _ _), _. split; [|split].
      + apply (runcmd_setpid_ok inv addr a0 _ Hargs k1 k2 k3 extra eq_refl).
      + unfold parsed_log. destruct (debug (flags inv)); reflexivity.
      + symmetry. exact Hpid. }
  destruct (String.eqb_spec (Arg inv 1) "setpoint") as [Hsp|Hsp].
  { destruct (Arg1_shape inv _ Hsp) as (a0 & toks & Hargs); [discriminate|].
    destruct (Nat.lt_ge_cases (length toks) 4) as [Hlt|Hge].
    { right. exists EvUsage. split; [|left; reflexivity].
      apply (runcmd_setpoint_short inv addr a0 toks Hargs Hlt). }
    destruct (Nat.Even_or_Odd (length toks)) as [Hev|Hodd].
    2:{ right. eexists. split; [|right; eexists; reflexivity].
        apply (runcmd_setpoint_odd inv addr a0 toks Hargs Hge Hodd). }
    destruct (Z.lt_ge_cases (fmt.Fscanf_d (Arg inv 2) 0) 0) as [Hd|Hd].
    { right. eexists. split; [|right; eexists; reflexivity].
      apply (runcmd_setpoint_negative inv addr a0 toks Hargs Hge Hev). left. exact Hd. }
    destruct (Z.lt_ge_cases (fmt.Fscanf_d (Arg inv 3) 0) 0) as [Hl|Hl].
    { right. eexists. split; [|right; eexists; reflexivity].
      apply (runcmd_setpoint_negative inv addr a0 toks Hargs Hge Hev). right. exact Hl. }
    left. eexists (SetSetpoints _ _ _), []. split; [|split].
    - apply (runcmd_setpoint_ok inv addr a0 toks Hargs Hge Hev Hd Hl).
    - reflexivity.
    - symmetry. exact Hsp. }
  apply String.eqb_neq in Hpid, Hsp.
  destruct (String.eqb_spec (Arg inv 1) "ping") as [Hping|Hping].
  { left. exists Ping, []. split; [|split; [reflexivity | symmetry; exact Hping]].
    unfold runcmd, sent_log, is_debug. rewrite Hping.
    destruct (debug (flags inv)); reflexivity. }
  destruct (String.eqb_spec (Arg inv 1) "test") as [Htest|Htest].
  { left. exists RunTests, []. split; [|split; [reflexivity | symmetry; exact Htest]].
    unfold runcmd, sent_log, is_debug. rewrite Htest.
    destruct (debug (flags inv)); reflexivity. }
  destruct (String.eqb_spec (Arg inv 1) "value") as [Hval|Hval].
  { left. exists RequestPosition, [].
    split; [|split; [reflexivity | symmetry; exact Hval]].
    unfold runcmd, sent_log, is_debug. rewrite Hval.
    destruct (debug (flags inv)); reflexivity. }
  apply String.eqb_neq in Hping, Htest, Hval.
  right. exists EvUsage. split; [|left; reflexivity].
  unfold runcmd. rewrite Hpid, Hsp, Hping, Htest, Hval. reflexivity.
Qed.

(** ** The setpid command: arity and coefficients *)

(** C7 (amended). The setpid command requires at least three following
    arguments: with fewer, validation fails with the usage text and exit
    status 1; with three or more, the message is built from the first three
    and written, and the arguments after the third are ignored. *)
Theorem setpid_arity (inv : Invocation) (addr : ActuatorAddress)
    (a0 : string) (toks : list string) :
  args inv = a0 :: "setpid"%string :: toks ->
  ((length toks < 3)%nat -> runcmd inv addr = ([EvUsage], Exit 1))
  /\ (forall k1 k2 k3 extra,
         toks = k1 :: k2 :: k3 :: extra ->
         runcmd inv addr =
           (parsed_log inv (fmt.Fscanf_f k1 fmt.float32_zero)
              (fmt.Fscanf_f k2 fmt.float32_zero) (fmt.Fscanf_f k3 fmt.float32_zero)
            ++ EvWrite addr (SetPID (fmt.Fscanf_f k1 fmt.float32_zero)
                               (fmt.Fscanf_f k2 fmt.float32_zero)
                               (fmt.Fscanf_f k3 fmt.float32_zero))
            :: sent_log inv addr, Done tt)).
Proof.
  intros Hargs. split.
  - apply (runcmd_setpid_short inv addr a0 toks Hargs).
  - apply (runcmd_setpid_ok inv addr a0 toks Hargs).
Qed.

Lemma setpid_arity_witness :
  runcmd (mkInvocation sel_ribs ["x"; "setpid"; "40.4"; "1.0"]%string true) ADDR_RIBS
  = ([EvUsage], Exit 1).
Proof.
  refine (proj1 (setpid_arity
                   (mkInvocation sel_ribs ["x"; "setpid"; "40.4"; "1.0"]%string true)
                   ADDR_RIBS "x"%string ["40.4"; "1.0"]%string eq_refl) _).
  simpl. lia.
Defined.

(** C7, as stated, fails on a fourth argument: it is accepted in silence
    and the message built from the first three is written. *)
Lemma setpid_extra_argument_accepted :
  runcmd (mkInvocation sel_ribs ["x"; "setpid"; "40.4"; "1.0"; "-1.0"; "7"]%string true)
         ADDR_RIBS
  = ([EvWrite ADDR_RIBS
        (SetPID (S754_finite false 10590618 (-18))
                (S754_finite false 8388608 (-23))
                (S754_finite true 8388608 (-23)))], Done tt)
  /\ status (main (mkInvocation sel_ribs
                     ["x"; "setpid"; "40.4"; "1.0"; "-1.0"; "7"]%string true)) = 0.
Proof. split; vm_compute; reflexivity. Qed.



(** ** [main]: arguments, help, the port and the selectors *)

Lemma main_short (inv : Invocation) :
  (NArg inv < 2)%nat -> main inv = ([EvUsage], Exit 1).
Proof.
  intros H. unfold main.
  replace (NArg inv <? 2)%nat with true by (symmetry; apply Nat.ltb_lt; exact H).
  reflexivity.
Qed.

Lemma main_help (inv : Invocation) :
  (2 <= NArg inv)%nat -> help (flags inv) = true -> main inv = ([EvUsage], Exit 0).
Proof.
  intros H Hhelp. unfold main.
  replace (NArg inv <? 2)%nat with false by (symmetry; apply Nat.ltb_ge; exact H).
  rewrite Hhelp. reflexivity.
Qed.

(** Past the checks and with the port open, [main] runs the command for
    the first selector that is set, and closes the port when that returns. *)
Lemma main_run (inv : Invocation) :
  (2 <= NArg inv)%nat -> help (flags inv) = false -> port_opens inv = true ->
  main inv =
    let body := defer (emit EvClose)
                  match selected (flags inv) with
                  | Some addr => runcmd inv addr
                  | None => ret tt
                  end in
    (EvOpen (portname (flags inv)) :: opened_log inv ++ fst body, snd body).
Proof.
  intros H Hhelp Hopen. unfold main.
  replace (NArg inv <? 2)%nat with false by (symmetry; apply Nat.ltb_ge; exact H).
  rewrite Hhelp, Hopen, bind_ret_l. unfold selected, opened_log, is_debug.
  destruct (debug (flags inv)), (ribs (flags inv)), (purr (flags inv)),
    (spine (flags inv)), (headx (flags inv)), (heady (flags inv));
    cbn [when]; rewrite ?bind_emit, ?bind_ret_l;
    match goal with |- context [defer ?d ?b] => destruct (defer d b) end;
    reflexivity.
Qed.

(** C10. With fewer than two positional arguments the process prints the
    usage text and exits with status 1, the -help flag set or not; the help
    path, which exits with status 0, is taken only with at least two
    positional arguments. *)
Theorem help_needs_two_arguments (inv : Invocation) :
  ((NArg inv < 2)%nat -> main inv = ([EvUsage], Exit 1))
  /\ ((2 <= NArg inv)%nat -> help (flags inv) = true ->
      main inv = ([EvUsage], Exit 0))
  /\ (main inv = ([EvUsage], Exit 0) -> (2 <= NArg inv)%nat).
Proof.
  split; [apply main_short | split; [apply main_help|]].
  intros Hmain. destruct (Nat.lt_ge_cases (NArg inv) 2) as [Hlt|Hge]; [|exact Hge].
  rewrite (main_short inv Hlt) in Hmain. discriminate.
Qed.

Lemma help_needs_two_arguments_witness :
  main (mkInvocation
          (mkFlags false true true false false false false "/dev/ttyUSB0")
          ["ping"]%string true)
  = ([EvUsage], Exit 1).
Proof.
  refine (proj1 (help_needs_two_arguments
                   (mkInvocation
                      (mkFlags false true true false false false false "/dev/ttyUSB0")
                      ["ping"]%string true)) _).
  unfold NArg. simpl. lia.
Defined.

Lemma opened_log_no_close (inv : Invocation) : ~ In EvClose (opened_log inv).
Proof.
  unfold opened_log. destruct (debug (flags inv)); [intros [H|[]]; discriminate | intros []].
Qed.

(** C3 (the code against the claim). [port.Close] is deferred, and a
    deferred call does not run when the process leaves through [os.Exit]:
    whenever the port has been opened and the process then exits through
    [fatalUsage] or [log.Fatal], the trace holds the opening of the port and
    no close. *)
Theorem exit_skips_close (inv : Invocation) (n : Z) :
  (2 <= NArg inv)%nat -> help (flags inv) = false -> port_opens inv = true ->
  snd (main inv) = Exit n ->
  In (EvOpen (portname (flags inv))) (trace (main inv))
  /\ ~ In EvClose (trace (main inv)).
Proof.
  intros H Hhelp Hopen Hexit. rewrite (main_run inv H Hhelp Hopen) in *.
  cbv zeta in *. unfold trace. cbn [fst snd] in *. split; [left; reflexivity|].
  intros [Hin|Hin]; [discriminate|]. apply in_app_or in Hin as [Hin|Hin].
  { exact (opened_log_no_close inv Hin). }
  destruct (selected (flags inv)) as [addr|]; [|discriminate].
  destruct (runcmd_cases inv addr) as [(m & pre & Hrun & _)|(e & Hrun & Hkind)];
    rewrite Hrun in *; [discriminate|].
  cbn in Hin. destruct Hin as [Hin|[]].
  destruct Hkind as [->|[msg ->]]; discriminate.
Qed.

Lemma exit_skips_close_witness :
  In (EvOpen "/dev/ttyUSB0")
     (trace (main (mkInvocation sel_ribs ["x"; "bogus"]%string true)))
  /\ ~ In EvClose (trace (main (mkInvocation sel_ribs ["x"; "bogus"]%string true))).
Proof.
  refine (exit_skips_close (mkInvocation sel_ribs ["x"; "bogus"]%string true) 1
            _ eq_refl eq_refl eq_refl).
  unfold NArg. simpl. lia.
Defined.

(** C4 (the code against the claim). With no selector set, the [switch] of
    [main] has no case to take: once past the argument check, the port is
    opened and closed, nothing is written and the exit status is 0. *)
Theorem no_selector_exits_zero (inv : Invocation) :
  ribs (flags inv) = false -> purr (flags inv) = false ->
  spine (flags inv) = false -> headx (flags inv) = false ->
  heady (flags inv) = false ->
  (2 <= NArg inv)%nat -> help (flags inv) = false -> port_opens inv = true ->
  main inv = (EvOpen (portname (flags inv)) :: opened_log inv ++ [EvClose], Done tt)
  /\ status (main inv) = 0.
Proof.
  intros Hr Hp Hs Hx Hy H Hhelp Hopen.
  rewrite (main_run inv H Hhelp Hopen). unfold selected.
  rewrite Hr, Hp, Hs, Hx, Hy. split; reflexivity.
Qed.

Lemma no_selector_exits_zero_witness :
  main (mkInvocation sel_none ["x"; "ping"]%string true)
  = ([EvOpen "/dev/ttyUSB0"; EvClose], Done tt)
  /\ status (main (mkInvocation sel_none ["x"; "ping"]%string true)) = 0.
Proof.
  refine (no_selector_exits_zero (mkInvocation sel_none ["x"; "ping"]%string true)
            eq_refl eq_refl eq_refl eq_refl eq_refl _ eq_refl eq_refl).
  unfold NArg. simpl. lia.
Defined.

(** With at least one selector set, the command goes to the address of the
    first one in the order ribs, purr, spine, head yaw, head pitch. *)
Lemma main_first_selector (inv : Invocation) (addr : ActuatorAddress) :
  (2 <= NArg inv)%nat -> help (flags inv) = false -> port_opens inv = true ->
  selected (flags inv) = Some addr ->
  main inv =
    (EvOpen (portname (flags inv))
       :: opened_log inv ++ fst (defer (emit EvClose) (runcmd inv addr)),
     snd (defer (emit EvClose) (runcmd inv addr))).
Proof.
  intros H Hhelp Hopen Hsel. rewrite (main_run inv H Hhelp Hopen), Hsel. reflexivity.
Qed.


(** ** [runcmd] and [main] without the loop and the binds *)

Lemma runcmd_loop_free (inv : Invocation) (addr : ActuatorAddress) :
  runcmd inv addr = runcmd_summary inv addr.
Proof.
  unfold runcmd_summary.
  destruct (String.eqb_spec (Arg inv 1) "setpid") as [Hpid|Hpid].
  { destruct (Arg1_shape inv _ Hpid) as (a0 & toks & Hargs); [discriminate|].
    assert (HN : NArg inv = (2 + length toks)%nat) by (unfold NArg; rewrite Hargs; reflexivity).
    destruct (Nat.ltb_spec (NArg inv) 5) as [Hlt|Hge].
    - apply (runcmd_setpid_short inv addr a0 toks Hargs). lia.
    - destruct toks as [|k1 [|k2 [|k3 extra]]]; cbn in HN; try lia.
      rewrite (runcmd_setpid_ok inv addr a0 _ Hargs k1 k2 k3 extra eq_refl).
      unfold Arg. rewrite Hargs. reflexivity. }
  destruct (String.eqb_spec (Arg inv 1) "setpoint") as [Hsp|Hsp].
  { destruct (Arg1_shape inv _ Hsp) as (a0 & toks & Hargs); [discriminate|].
    assert (HN : NArg inv = (2 + length toks)%nat) by (unfold NArg; rewrite Hargs; reflexivity).
    destruct (Nat.ltb_spec (NArg inv) 6) as [Hlt|Hge].
    { apply (runcmd_setpoint_short inv addr a0 toks Hargs). lia. }
    destruct (Nat.eqb_spec (NArg inv mod 2) 0) as [Hev|Hodd]; cbn [negb].
    2:{ apply (runcmd_setpoint_odd inv addr a0 toks Hargs); [lia|].
        destruct (Nat.Even_or_Odd (length toks)) as [[q Hq]|Ho]; [|exact Ho].
        exfalso. apply Hodd. rewrite HN, Hq.
        replace (2 + 2 * q)%nat with (0 + (1 + q) * 2)%nat by lia.
        rewrite Nat.Div0.mod_add. reflexivity. }
    assert (Heven : Nat.Even (length toks)).
    { destruct (Nat.Even_or_Odd (length toks)) as [He|[q Hq]]; [exact He|].
      exfalso. rewrite HN, Hq in Hev.
      replace (2 + (2 * q + 1))%nat with (1 + (q + 1) * 2)%nat in Hev by lia.
      rewrite Nat.Div0.mod_add in Hev. discriminate. }
    destruct (Z.ltb_spec (fmt.Fscanf_d (Arg inv 2) 0) 0) as [Hd|Hd]; cbn [orb].
    { apply (runcmd_setpoint_negative inv addr a0 toks Hargs); [lia|exact Heven|].
      left. exact Hd. }
    destruct (Z.ltb_spec (fmt.Fscanf_d (Arg inv 3) 0) 0) as [Hl|Hl].
    { apply (runcmd_setpoint_negative inv addr a0 toks Hargs); [lia|exact Heven|].
      right. exact Hl. }
    rewrite (runcmd_setpoint_ok inv addr a0 toks Hargs) by (try assumption; lia).
    unfold setpoint_values. rewrite Hargs. reflexivity. }
  apply String.eqb_neq in Hpid, Hsp.
  unfold runcmd. rewrite Hpid, Hsp. unfold sent_log, is_debug.
  destruct (Arg inv 1 =? "ping")%string; [destruct (debug (flags inv)); reflexivity|].
  destruct (Arg inv 1 =? "test")%string; [destruct (debug (flags inv)); reflexivity|].
  destruct (Arg inv 1 =? "value")%string; [destruct (debug (flags inv)); reflexivity|].
  reflexivity.
Qed.

Lemma main_loop_free (inv : Invocation) : main inv = main_summary inv.
Proof.
  unfold main_summary.
  destruct (Nat.ltb_spec (NArg inv) 2) as [Hlt|Hge]; [apply main_short; exact Hlt|].
  destruct (help (flags inv)) eqn:Hhelp; [apply main_help; assumption|].
  destruct (port_opens inv) eqn:Hopen; cbn [negb].
  - rewrite (main_run inv Hge Hhelp Hopen). cbv zeta.
    destruct (selected (flags inv)) as [addr|]; [|reflexivity].
    rewrite runcmd_loop_free. destruct (runcmd_summary inv addr) as [tr [[]|n|]];
      cbn [defer fst snd emit]; rewrite ?app_assoc; reflexivity.
  - unfold main.
    replace (NArg inv <? 2)%nat with false by (symmetry; apply Nat.ltb_ge; exact Hge).
    rewrite Hhelp, Hopen. reflexivity.
Qed.

(** ** Further properties of [main] *)

Lemma known_command_false (c : string) :
  known_command c = false ->
  String.eqb c "setpid" = false /\ String.eqb c "setpoint" = false
  /\ String.eqb c "ping" = false /\ String.eqb c "test" = false
  /\ String.eqb c "value" = false.
Proof.
  unfold known_command. intros H.
  repeat (apply orb_false_elim in H as [H ?]). repeat split; assumption.
Qed.

(** X1. An unknown command word is diagnosed only after the port has been
    opened: with a selector set and the port open, the run prints the usage
    text and exits with status 1; nothing is written and the port is not
    closed. *)
Theorem unknown_command_after_open (inv : Invocation) (addr : ActuatorAddress) :
  (2 <= NArg inv)%nat -> help (flags inv) = false -> port_opens inv = true ->
  selected (flags inv) = Some addr -> known_command (Arg inv 1) = false ->
  main inv = (EvOpen (portname (flags inv)) :: opened_log inv ++ [EvUsage], Exit 1).
Proof.
  intros HN Hhelp Hopen Hsel Hcmd.
  apply known_command_false in Hcmd as (H1 & H2 & H3 & H4 & H5).
  rewrite main_loop_free. unfold main_summary, runcmd_summary.
  replace (NArg inv <? 2)%nat with false by (symmetry; apply Nat.ltb_ge; exact HN).
  rewrite Hhelp, Hopen, Hsel, H1, H2, H3, H4, H5. reflexivity.
Qed.

Lemma unknown_command_after_open_witness :
  main (mkInvocation sel_ribs ["x"; "reset"]%string true)
  = ([EvOpen "/dev/ttyUSB0"; EvUsage], Exit 1).
Proof.
  refine (unknown_command_after_open
            (mkInvocation sel_ribs ["x"; "reset"]%string true) ADDR_RIBS
            _ eq_refl eq_refl eq_refl eq_refl).
  unfold NArg. simpl. lia.
Defined.

(** X2. When the port cannot be opened, the run ends with the fatal error
    of [serial.Open] and status 1 before the selectors and the command are
    looked at: the outcome is the same for a valid and for an invalid
    command. *)
Theorem open_failure_precedes_command (inv : Invocation) :
  (2 <= NArg inv)%nat -> help (flags inv) = false -> port_opens inv = false ->
  main inv = ([EvFatal "serial.Open"], Exit 1).
Proof.
  intros HN Hhelp Hopen. rewrite main_loop_free. unfold main_summary.
  replace (NArg inv <? 2)%nat with false by (symmetry; apply Nat.ltb_ge; exact HN).
  rewrite Hhelp, Hopen. reflexivity.
Qed.

Lemma open_failure_precedes_command_witness :
  main (mkInvocation sel_ribs ["x"; "reset"]%string false)
  = ([EvFatal "serial.Open"], Exit 1).
Proof.
  refine (open_failure_precedes_command
            (mkInvocation sel_ribs ["x"; "reset"]%string false) _ eq_refl eq_refl).
  unfold NArg. simpl. lia.
Defined.

Lemma runcmd_summary_no_port_event (inv : Invocation) (addr : ActuatorAddress) :
  forallb (fun e => negb (is_port_event e)) (fst (runcmd_summary inv addr)) = true.
Proof.
  unfold runcmd_summary, parsed_log, sent_log. split_ifs; reflexivity.
Qed.

Lemma opened_log_no_port_event (inv : Invocation) :
  forallb (fun e => negb (is_port_event e)) (opened_log inv) = true.
Proof. unfold opened_log. destruct (debug (flags inv)); reflexivity. Qed.

(** X3. Whenever [main] returns, the port was opened first and closed last,
    it is neither opened nor closed in between, and the exit status is 0. *)
Theorem return_closes_port (inv : Invocation) :
  snd (main inv) = Done tt ->
  exists mid,
    trace (main inv) = EvOpen (portname (flags inv)) :: mid ++ [EvClose]
    /\ forallb (fun e => negb (is_port_event e)) mid = true
    /\ status (main inv) = 0.
Proof.
  rewrite main_loop_free. unfold status, trace, main_summary.
  destruct (NArg inv <? 2)%nat; [discriminate|].
  destruct (help (flags inv)); [discriminate|].
  destruct (port_opens inv); cbn [negb]; [|discriminate].
  destruct (selected (flags inv)) as [addr|].
  - pose proof (runcmd_summary_no_port_event inv addr) as Hrun.
    destruct (runcmd_summary inv addr) as [tr [[]|n|]]; cbn [fst snd] in *;
      try discriminate.
    intros _. exists (opened_log inv ++ tr). rewrite <- app_assoc.
    split; [reflexivity|split; [|reflexivity]].
    rewrite forallb_app, opened_log_no_port_event, Hrun. reflexivity.
  - intros _. exists (opened_log inv). cbn [fst snd].
    split; [reflexivity|split; [|reflexivity]]. apply opened_log_no_port_event.
Qed.

Lemma return_closes_port_witness :
  exists mid,
    trace (main (mkInvocation sel_ribs ["x"; "ping"]%string true))
    = EvOpen "/dev/ttyUSB0" :: mid ++ [EvClose]
    /\ forallb (fun e => negb (is_port_event e)) mid = true
    /\ status (main (mkInvocation sel_ribs ["x"; "ping"]%string true)) = 0.
Proof.
  exact (return_closes_port (mkInvocation sel_ribs ["x"; "ping"]%string true) eq_refl).
Defined.

(** X4. One invocation writes at most one message. *)
Theorem at_most_one_write (inv : Invocation) :
  (length (List.filter is_write (trace (main inv))) <= 1)%nat.
Proof.
  rewrite main_loop_free.
  unfold trace, main_summary, runcmd_summary, opened_log, parsed_log, sent_log.
  split_ifs; cbn; lia.
Qed.

(** X5. A message is written only when everything went well: the address
    is that of the first selector set, the variant is that of the command
    word, the usage checks passed, the port is open, and the run then
    returns with the port closed. *)
Theorem write_only_on_success (inv : Invocation) (a : ActuatorAddress) (m : Message) :
  In (EvWrite a m) (trace (main inv)) ->
  selected (flags inv) = Some a
  /\ command_name m = Arg inv 1
  /\ (2 <= NArg inv)%nat /\ help (flags inv) = false /\ port_opens inv = true
  /\ snd (main inv) = Done tt.
Proof.
  rewrite main_loop_free.
  unfold trace, main_summary, runcmd_summary, opened_log, parsed_log, sent_log.
  destruct (Nat.ltb_spec (NArg inv) 2) as [HN|HN]; [intros Hin; in_list Hin|].
  destruct (help (flags inv)); [intros Hin; in_list Hin|].
  destruct (port_opens inv); cbn [negb]; [|intros Hin; in_list Hin].
  destruct (selected (flags inv)) as [addr|];
    [|destruct (debug (flags inv)); intros Hin; in_list Hin].
  destruct (String.eqb_spec (Arg inv 1) "setpid") as [->|_];
    [split_ifs; intros Hin; in_list Hin; repeat split; reflexivity || assumption|].
  destruct (String.eqb_spec (Arg inv 1) "setpoint") as [->|_];
    [split_ifs; intros Hin; in_list Hin; repeat split; reflexivity || assumption|].
  destruct (String.eqb_spec (Arg inv 1) "ping") as [->|_];
    [split_ifs; intros Hin; in_list Hin; repeat split; reflexivity || assumption|].
  destruct (String.eqb_spec (Arg inv 1) "test") as [->|_];
    [split_ifs; intros Hin; in_list Hin; repeat split; reflexivity || assumption|].
  destruct (String.eqb_spec (Arg inv 1) "value") as [->|_];
    [split_ifs; intros Hin; in_list Hin; repeat split; reflexivity || assumption|].
  split_ifs; intros Hin; in_list Hin.
Qed.

Lemma write_only_on_success_witness :
  selected sel_ribs = Some ADDR_RIBS
  /\ command_name Ping = "ping"%string
  /\ (2 <= 2)%nat /\ false = false /\ true = true
  /\ snd (main (mkInvocation sel_ribs ["x"; "ping"]%string true)) = Done tt.
Proof.
  refine (write_only_on_success (mkInvocation sel_ribs ["x"; "ping"]%string true)
            ADDR_RIBS Ping _).
  right. left. reflexivity.
Defined.

(** X6. Once [flag.Parse] has returned, [main] ends in one of three ways
    only: it returns, or the process exits through [os.Exit] with status 0
    (help) or with status 1 (a usage or a fatal error). In particular no
    invocation panics: the index into the setpoints slice is always in
    range. *)
Theorem main_returns_or_exits (inv : Invocation) :
  snd (main inv) = Done tt \/ snd (main inv) = Exit 0 \/ snd (main inv) = Exit 1.
Proof.
  rewrite main_loop_free. unfold main_summary, runcmd_summary.
  split_ifs; cbn; auto.
Qed.

(** X7. The -debug flag only adds log lines: without its log lines the
    trace is the same with the flag set or not, and so is the way the run
    ends. *)
Theorem debug_only_adds_log_lines (inv : Invocation) (b : bool) :
  wire (trace (main (with_debug b inv))) = wire (trace (main inv))
  /\ snd (main (with_debug b inv)) = snd (main inv).
Proof.
  rewrite !main_loop_free.
  unfold trace, wire, main_summary, runcmd_summary, setpoint_values,
    opened_log, parsed_log, sent_log, with_debug, NArg, Arg.
  cbn [flags args port_opens debug help ribs purr spine headx heady portname selected].
  unfold selected.
  cbn [flags args port_opens debug help ribs purr spine headx heady portname].
  destruct (debug (flags inv)), b; split_ifs; split; reflexivity.
Qed.

(** X8. The first positional argument is never looked at: two invocations
    that differ only in [flag.Arg(0)] run alike. *)
Theorem first_argument_ignored (f : Flags) (a0 a0' : string) (rest : list string)
    (opens : bool) :
  main (mkInvocation f (a0 :: rest) opens) = main (mkInvocation f (a0' :: rest) opens).
Proof.
  rewrite !main_loop_free.
  unfold main_summary, runcmd_summary, setpoint_values,
    opened_log, parsed_log, sent_log, NArg, Arg.
  reflexivity.
Qed.

(** ** Further properties of the setpoint command *)

(** X9. A delay or a loop count that scans as a negative integer is
    rejected: the run ends with the fatal error on the delay and the loop
    and status 1, and nothing is written. *)
Theorem negative_delay_or_loop_rejected (inv : Invocation) (addr : ActuatorAddress)
    (a0 td tl : string) (rest : list string) (n : Z) :
  args inv = a0 :: "setpoint"%string :: td :: tl :: rest ->
  (2 <= length rest)%nat -> Nat.Even (length rest) ->
  n < 0 -> fmt.scanInt td = Some n \/ fmt.scanInt tl = Some n ->
  runcmd inv addr = ([EvFatal "Error: delay and loop must be positive"], Exit 1).
Proof.
  intros Hargs Hlen [q Hq] Hn Hscan.
  apply (runcmd_setpoint_negative inv addr a0 _ Hargs).
  - cbn [length]. lia.
  - exists (S q). cbn [length]. lia.
  - unfold Arg. rewrite Hargs. cbn.
    destruct Hscan as [H|H]; [left|right];
      rewrite (Fscanf_d_scanned _ n 0 H); exact Hn.
Qed.

Lemma negative_delay_or_loop_rejected_witness :
  runcmd (mkInvocation sel_ribs ["x"; "setpoint"; "0"; "-3"; "1000"; "5"]%string true)
         ADDR_RIBS
  = ([EvFatal "Error: delay and loop must be positive"], Exit 1).
Proof.
  refine (negative_delay_or_loop_rejected
            (mkInvocation sel_ribs ["x"; "setpoint"; "0"; "-3"; "1000"; "5"]%string true)
            ADDR_RIBS "x"%string "0"%string "-3"%string ["1000"; "5"]%string (-3)
            eq_refl _ _ _ _).
  - simpl. lia.
  - exists 1%nat. reflexivity.
  - lia.
  - right. reflexivity.
Defined.

Lemma uint16_in_range (x : Z) : in_uint16 (GoInt.uint16 x).
Proof. unfold in_uint16, GoInt.uint16. apply Z.mod_pos_bound. lia. Qed.

Lemma pair_up_in_range (vs : list Z) :
  Forall in_uint16 vs -> Forall entry_in_uint16 (pair_up vs).
Proof.
  assert (H : forall n (l : list Z), (length l <= n)%nat ->
                Forall in_uint16 l -> Forall entry_in_uint16 (pair_up l)).
  { induction n as [|n IH]; intros l Hl Hall.
    - destruct l; [constructor | simpl in Hl; lia].
    - destruct l as [|d [|s rest]]; try constructor.
      + apply Forall_cons_1 in Hall as [Hd Hall].
        apply Forall_cons_1 in Hall as [Hs _]. split; assumption.
      + apply IH; [simpl in Hl; lia|].
        apply Forall_cons_1 in Hall as [_ Hall].
        apply Forall_cons_1 in Hall as [_ Hall]. exact Hall. }
  apply (H (length vs)). lia.
Qed.

Lemma setpoint_values_in_range (inv : Invocation) :
  Forall entry_in_uint16 (setpoint_values inv).
Proof.
  unfold setpoint_values. apply pair_up_in_range.
  generalize (drop 4 (args inv)) as l.
  induction l as [|t l IH]; constructor; [apply uint16_in_range | exact IH].
Qed.

Lemma setpoint_values_length (inv : Invocation) :
  length (setpoint_values inv) = ((NArg inv - 4) / 2)%nat.
Proof.
  unfold setpoint_values, NArg.
  rewrite pair_up_length, length_map, length_drop. reflexivity.
Qed.

(** X10. Every setpoint message that [runcmd] writes is well formed: it has
    at least one entry, the entries account for all the arguments after the
    loop count (two each), and the delay, the loop count and the fields of
    every entry are within the range of [uint16]. *)
Theorem setpoint_message_wellformed (inv : Invocation) (addr a : ActuatorAddress)
    (d l : Z) (sp : list Setpoint) :
  In (EvWrite a (SetSetpoints d l sp)) (trace (runcmd inv addr)) ->
  (1 <= length sp)%nat
  /\ NArg inv = (4 + 2 * length sp)%nat
  /\ in_uint16 d /\ in_uint16 l
  /\ Forall entry_in_uint16 sp.
Proof.
  rewrite runcmd_loop_free. unfold trace, runcmd_summary, parsed_log, sent_log.
  destruct (Arg inv 1 =? "setpid")%string;
    [split_ifs; intros Hin; in_list Hin|].
  destruct (Arg inv 1 =? "setpoint")%string.
  2:{ split_ifs; intros Hin; in_list Hin. }
  destruct (Nat.ltb_spec (NArg inv) 6) as [HN|HN]; [intros Hin; in_list Hin|].
  destruct (Nat.eqb_spec (NArg inv mod 2) 0) as [Hev|Hodd]; cbn [negb];
    [|intros Hin; in_list Hin].
  assert (Hlen : NArg inv = (4 + 2 * ((NArg inv - 4) / 2))%nat).
  { pose proof (Nat.div_mod_eq (NArg inv - 4) 2) as Hdm.
    assert (Hm : ((NArg inv - 4) mod 2 = 0)%nat).
    { replace (NArg inv) with ((NArg inv - 4) + 2 * 2)%nat in Hev by lia.
      rewrite Nat.Div0.mod_add in Hev. exact Hev. }
    lia. }
  assert (Hpos : (1 <= (NArg inv - 4) / 2)%nat) by lia.
  pose proof (setpoint_values_length inv) as Hsv.
  pose proof (setpoint_values_in_range inv) as Hrange.
  split_ifs; intros Hin; in_list Hin; subst;
    (split; [|split; [|split; [|split]]]);
    try apply uint16_in_range; try assumption; lia.
Qed.

Lemma setpoint_message_wellformed_witness :
  (1 <= 1)%nat /\ 6%nat = (4 + 2 * 1)%nat
  /\ in_uint16 0 /\ in_uint16 1 /\ Forall entry_in_uint16 [mkSetpoint 1000 26075].
Proof.
  refine (setpoint_message_wellformed
            (mkInvocation sel_ribs ["x"; "setpoint"; "0"; "1"; "1000"; "26075"]%string true)
            ADDR_RIBS ADDR_RIBS 0 1 [mkSetpoint 1000 26075] _).
  left. reflexivity.
Defined.

Lemma scanInt_no_number (t : string) :
  starts_no_integer t = true -> fmt.scanInt t = None.
Proof.
  intros H. destruct t as [|c s]; [reflexivity|].
  destruct c as [[] [] [] [] [] [] [] []]; cbv in H; try discriminate H;
    destruct s as [|c2 [|c3 s3]]; reflexivity.
Qed.

Lemma pair_up_zeros (n : nat) :
  pair_up (replicate (2 * n) 0) = replicate n (mkSetpoint 0 0).
Proof.
  induction n as [|n IH]; [reflexivity|].
  replace (2 * S n)%nat with (S (S (2 * n))) by lia.
  cbn [replicate pair_up]. rewrite IH. reflexivity.
Qed.

Lemma unscanned_values (toks : list string) :
  Forall (fun t => starts_no_integer t = true) toks ->
  map (fun t => GoInt.uint16 (fmt.Fscanf_d t 0)) toks = replicate (length toks) 0.
Proof.
  induction 1 as [|t toks Ht _ IH]; [reflexivity|].
  cbn [map length replicate]. rewrite IH. unfold fmt.Fscanf_d.
  rewrite (scanInt_no_number t Ht). reflexivity.
Qed.

(** X11. Tokens that cannot begin a number are not rejected by the setpoint
    command: with a valid argument count and every token empty or starting
    with a letter, the message is written with delay 0, loop count 0 and
    every entry (0, 0). *)
Theorem unscanned_tokens_read_as_zero (inv : Invocation) (addr : ActuatorAddress)
    (a0 : string) (toks : list string) (q : nat) :
  args inv = a0 :: "setpoint"%string :: toks ->
  length toks = (2 + 2 * q)%nat -> (1 <= q)%nat ->
  Forall (fun t => starts_no_integer t = true) toks ->
  runcmd inv addr =
    (EvWrite addr (SetSetpoints 0 0 (replicate q (mkSetpoint 0 0)))
       :: sent_log inv addr, Done tt).
Proof.
  intros Hargs Hlen Hq Hall.
  pose proof (unscanned_values _ Hall) as Hvals.
  destruct toks as [|td [|tl rest]]; cbn [length] in Hlen; try lia.
  apply Forall_cons_1 in Hall as [Hd Hall].
  apply Forall_cons_1 in Hall as [Hl Hall].
  assert (HA2 : fmt.Fscanf_d (Arg inv 2) 0 = 0).
  { unfold Arg. rewrite Hargs. cbn. unfold fmt.Fscanf_d.
    rewrite (scanInt_no_number td Hd). reflexivity. }
  assert (HA3 : fmt.Fscanf_d (Arg inv 3) 0 = 0).
  { unfold Arg. rewrite Hargs. cbn. unfold fmt.Fscanf_d.
    rewrite (scanInt_no_number tl Hl). reflexivity. }
  rewrite (runcmd_setpoint_ok inv addr a0 _ Hargs).
  - rewrite HA2, HA3. cbn [skipn]. rewrite drop_0.
    rewrite (unscanned_values _ Hall).
    replace (length rest) with (2 * q)%nat by lia.
    rewrite pair_up_zeros. reflexivity.
  - cbn [length]. lia.
  - exists (S q). cbn [length]. lia.
  - rewrite HA2. lia.
  - rewrite HA3. lia.
Qed.

Lemma unscanned_tokens_read_as_zero_witness :
  runcmd (mkInvocation sel_ribs
            ["x"; "setpoint"; "soon"; "forever"; "fast"; "left"]%string true) ADDR_RIBS
  = ([EvWrite ADDR_RIBS (SetSetpoints 0 0 [mkSetpoint 0 0])], Done tt).
Proof.
  refine (unscanned_tokens_read_as_zero
            (mkInvocation sel_ribs
               ["x"; "setpoint"; "soon"; "forever"; "fast"; "left"]%string true)
            ADDR_RIBS "x"%string ["soon"; "forever"; "fast"; "left"]%string 1
            eq_refl eq_refl _ _).
  - lia.
  - repeat constructor.
Defined.

Lemma accept_digits_prefix (d junk : string) :
  forallb fmt.is_digit (list_ascii_of_string d) = true ->
  starts_with_digit junk = false ->
  fmt.accept_digits (d ++ junk) = (d, junk).
Proof.
  intros Hd Hj. induction d as [|c d IH].
  - destruct junk as [|c junk]; [reflexivity|].
    cbn in Hj. cbn [String.append fmt.accept_digits]. rewrite Hj. reflexivity.
  - cbn [list_ascii_of_string forallb] in Hd. apply andb_true_iff in Hd as [Hc Hd].
    cbn [String.append fmt.accept_digits]. rewrite Hc, (IH Hd). reflexivity.
Qed.

(** A numeral followed by other text is scanned to the value of the
    numeral. *)
Lemma scanInt_numeral_then_text (t : string) (n : Z) :
  numeral_then_text t n -> fmt.scanInt t = Some n.
Proof.
  intros (d & junk & -> & Hdec & Hmax & Hjunk & ->).
  destruct d as [|c d]; [discriminate|].
  unfold is_decimal in Hdec. pose proof Hdec as Hall.
  cbn [list_ascii_of_string forallb] in Hdec. apply andb_true_iff in Hdec as [Hc Hd].
  unfold fmt.scanInt. cbn [String.append]. rewrite (SkipSpace_digit c _ Hc).
  unfold fmt.accept_sign. rewrite (digit_not_sign c Hc).
  change (String c (d ++ junk)%string) with (String c d ++ junk)%string.
  rewrite (accept_digits_prefix _ _ Hall Hjunk).
  unfold fmt.ParseInt. cbn [String.eqb].
  pose proof (digits_value_from_nonneg _ Hall 0 (Z.le_refl 0)) as Hnn.
  fold (fmt.digits_value (String c d)) in Hnn.
  assert (Hfit : GoInt.fits 64 (fmt.digits_value (String c d)) = true).
  { unfold GoInt.fits. apply andb_true_iff. split; apply Z.leb_le.
    - unfold GoInt.minInt. simpl. lia.
    - exact Hmax. }
  rewrite Hfit. unfold GoInt.intSize. rewrite Hfit. reflexivity.
Qed.

Lemma numeral_values (toks : list string) (ns : list Z) :
  Forall2 numeral_then_text toks ns ->
  map (fun t => GoInt.uint16 (fmt.Fscanf_d t 0)) toks = map GoInt.uint16 ns.
Proof.
  induction 1 as [|t n toks ns Ht _ IH]; [reflexivity|].
  cbn [map]. rewrite (Fscanf_d_scanned t n 0 (scanInt_numeral_then_text t n Ht)), IH.
  reflexivity.
Qed.

Lemma numeral_then_text_nonneg (t : string) (n : Z) : numeral_then_text t n -> 0 <= n.
Proof. intros (d & junk & _ & Hdec & _ & _ & ->). apply decimal_nonneg, Hdec. Qed.

(** X12. The setpoint command reads each token up to the end of its
    leading numeral and ignores what follows: an argument list of tokens of
    the form numeral-then-text (such as 1000ms) gives the same message as
    the numerals alone. *)
Theorem trailing_text_ignored (inv : Invocation) (addr : ActuatorAddress)
    (a0 td tl : string) (rest : list string) (nd nl : Z) (ns : list Z) :
  args inv = a0 :: "setpoint"%string :: td :: tl :: rest ->
  (2 <= length rest)%nat -> Nat.Even (length rest) ->
  Forall2 numeral_then_text (td :: tl :: rest) (nd :: nl :: ns) ->
  runcmd inv addr =
    (EvWrite addr
       (SetSetpoints (GoInt.uint16 nd) (GoInt.uint16 nl)
          (pair_up (map GoInt.uint16 ns)))
       :: sent_log inv addr, Done tt).
Proof.
  intros Hargs Hlen [q Hq] Hall.
  pose proof (numeral_values _ _ Hall) as Hvals.
  apply Forall2_cons_1 in Hall as [Hd Hall].
  apply Forall2_cons_1 in Hall as [Hl Hall].
  assert (HA2 : fmt.Fscanf_d (Arg inv 2) 0 = nd).
  { unfold Arg. rewrite Hargs. cbn.
    apply Fscanf_d_scanned, scanInt_numeral_then_text, Hd. }
  assert (HA3 : fmt.Fscanf_d (Arg inv 3) 0 = nl).
  { unfold Arg. rewrite Hargs. cbn.
    apply Fscanf_d_scanned, scanInt_numeral_then_text, Hl. }
  rewrite (runcmd_setpoint_ok inv addr a0 _ Hargs).
  - rewrite HA2, HA3. cbn [skipn]. rewrite drop_0.
    cbn [map] in Hvals. injection Hvals as _ _ Hvals. rewrite Hvals. reflexivity.
  - cbn [length]. lia.
  - exists (S q). cbn [length]. lia.
  - rewrite HA2. apply (numeral_then_text_nonneg td), Hd.
  - rewrite HA3. apply (numeral_then_text_nonneg tl), Hl.
Qed.

Lemma trailing_text_ignored_witness :
  runcmd (mkInvocation sel_ribs
            ["x"; "setpoint"; "0s"; "3x"; "1000ms"; "26075"]%string true) ADDR_RIBS
  = ([EvWrite ADDR_RIBS (SetSetpoints 0 3 [mkSetpoint 1000 26075])], Done tt).
Proof.
  refine (trailing_text_ignored
            (mkInvocation sel_ribs
               ["x"; "setpoint"; "0s"; "3x"; "1000ms"; "26075"]%string true)
            ADDR_RIBS "x"%string "0s"%string "3x"%string ["1000ms"; "26075"]%string
            0 3 [1000; 26075] eq_refl _ _ _).
  - simpl. lia.
  - exists 1%nat. reflexivity.
  - repeat constructor.
    + exists "0"%string, "s"%string. repeat split; vm_compute; congruence.
    + exists "3"%string, "x"%string. repeat split; vm_compute; congruence.
    + exists "1000"%string, "ms"%string. repeat split; vm_compute; congruence.
    + exists "26075"%string, ""%string. repeat split; vm_compute; congruence.
Defined.

(** X13. No failure is silent: whenever the process exits with status 1,
    the last thing it did was to print the usage text or a fatal message. *)
Theorem failure_is_reported (inv : Invocation) :
  snd (main inv) = Exit 1 ->
  exists pre e,
    trace (main inv) = pre ++ [e]
    /\ (e = EvUsage \/ exists msg, e = EvFatal msg).
Proof.
  rewrite main_loop_free.
  unfold trace, main_summary, runcmd_summary, opened_log, parsed_log, sent_log.
  split_ifs; cbn [fst snd app]; intros Hexit; try discriminate Hexit;
    first
      [ exists [], EvUsage; split; [reflexivity | left; reflexivity]
      | eexists [], (EvFatal _); split; [reflexivity | right; eexists; reflexivity]
      | eexists [_], EvUsage; split; [reflexivity | left; reflexivity]
      | eexists [_], (EvFatal _); split; [reflexivity | right; eexists; reflexivity]
      | eexists [_; _], EvUsage; split; [reflexivity | left; reflexivity]
      | eexists [_; _], (EvFatal _); split;
        [reflexivity | right; eexists; reflexivity] ].
Qed.

Lemma failure_is_reported_witness :
  exists pre e,
    trace (main (mkInvocation sel_ribs ["x"; "setpoint"; "0"; "1"; "7"]%string true))
    = pre ++ [e]
    /\ (e = EvUsage \/ exists msg, e = EvFatal msg).
Proof.
  exact (failure_is_reported
           (mkInvocation sel_ribs ["x"; "setpoint"; "0"; "1"; "7"]%string true) eq_refl).
Defined.


(** ** Plain numerals under the verb ["%f"] *)
















(** ** The response policy, command by command *)

(** C6. The response policy is a fixed function of the command variant.
    Whatever the flags and the other arguments, ping and value write their
    message, set a read deadline of one second and copy the response; test
    does the same with a deadline of five minutes; setpid and setpoint,
    once their arguments pass validation, write their message and await
    nothing. In every run, what follows a written message is exactly the
    transport events of [ResponsePolicy] for its variant. *)
Theorem response_policy_by_variant (inv : Invocation) (addr : ActuatorAddress) :
  (Arg inv 1 = "ping"%string ->
   runcmd inv addr =
     (EvWrite addr Ping :: EvSetReadDeadline 1000000000 :: EvCopy :: sent_log inv addr,
      Done tt))
  /\ (Arg inv 1 = "value"%string ->
      runcmd inv addr =
        (EvWrite addr RequestPosition :: EvSetReadDeadline 1000000000 :: EvCopy
           :: sent_log inv addr, Done tt))
  /\ (Arg inv 1 = "test"%string ->
      runcmd inv addr =
        (EvWrite addr RunTests :: EvSetReadDeadline 300000000000 :: EvCopy
           :: sent_log inv addr, Done tt))
  /\ (Arg inv 1 = "setpid"%string -> (5 <= NArg inv)%nat ->
      runcmd inv addr =
        (parsed_log inv (fmt.Fscanf_f (Arg inv 2) fmt.float32_zero)
           (fmt.Fscanf_f (Arg inv 3) fmt.float32_zero)
           (fmt.Fscanf_f (Arg inv 4) fmt.float32_zero)
         ++ EvWrite addr (SetPID (fmt.Fscanf_f (Arg inv 2) fmt.float32_zero)
                            (fmt.Fscanf_f (Arg inv 3) fmt.float32_zero)
                            (fmt.Fscanf_f (Arg inv 4) fmt.float32_zero))
         :: sent_log inv addr, Done tt))
  /\ (Arg inv 1 = "setpoint"%string ->
      (6 <= NArg inv)%nat -> (NArg inv mod 2 = 0)%nat ->
      0 <= fmt.Fscanf_d (Arg inv 2) 0 -> 0 <= fmt.Fscanf_d (Arg inv 3) 0 ->
      runcmd inv addr =
        (EvWrite addr
           (SetSetpoints (GoInt.uint16 (fmt.Fscanf_d (Arg inv 2) 0))
              (GoInt.uint16 (fmt.Fscanf_d (Arg inv 3) 0)) (setpoint_values inv))
           :: sent_log inv addr, Done tt))
  /\ ((exists m pre,
          runcmd inv addr =
            (pre ++ EvWrite addr m :: await (ResponsePolicy m) ++ sent_log inv addr,
             Done tt)
          /\ forallb is_log pre = true
          /\ command_name m = Arg inv 1)
      \/ (status (runcmd inv addr) = 1 /\ nothing_written (trace (runcmd inv addr)))).
Proof.
  repeat split.
  - intros H. rewrite runcmd_loop_free. unfold runcmd_summary. rewrite H. reflexivity.
  - intros H. rewrite runcmd_loop_free. unfold runcmd_summary. rewrite H. reflexivity.
  - intros H. rewrite runcmd_loop_free. unfold runcmd_summary. rewrite H. reflexivity.
  - intros H HN. rewrite runcmd_loop_free. unfold runcmd_summary. rewrite H.
    cbn [String.eqb Ascii.eqb Bool.eqb].
    replace (NArg inv <? 5)%nat with false by (symmetry; apply Nat.ltb_ge; exact HN).
    reflexivity.
  - intros H HN Hev Hd Hl. rewrite runcmd_loop_free. unfold runcmd_summary. rewrite H.
    cbn [String.eqb Ascii.eqb Bool.eqb].
    replace (NArg inv <? 6)%nat with false by (symmetry; apply Nat.ltb_ge; exact HN).
    rewrite Hev. cbn [Nat.eqb negb].
    replace ((fmt.Fscanf_d (Arg inv 2) 0 <? 0) || (fmt.Fscanf_d (Arg inv 3) 0 <? 0))
      with false
      by (symmetry; apply orb_false_intro; apply Z.ltb_ge; assumption).
    reflexivity.
  - destruct (runcmd_cases inv addr) as [Hw|(e & He & Hkind)]; [left; exact Hw|].
    right. rewrite He. split; [reflexivity|].
    apply exit_nothing_written.
    destruct Hkind as [->|[msg ->]]; discriminate.
Qed.

Lemma response_policy_by_variant_witness :
  runcmd (mkInvocation sel_ribs ["x"; "test"; "now"]%string true) ADDR_RIBS
  = ([EvWrite ADDR_RIBS RunTests; EvSetReadDeadline 300000000000; EvCopy], Done tt).
Proof.
  exact (proj1 (proj2 (proj2 (response_policy_by_variant
                                (mkInvocation sel_ribs ["x"; "test"; "now"]%string true)
                                ADDR_RIBS))) eq_refl).
Defined.

(** ** The setpid command: what the scan makes of a token *)



(** ** The setpoint command: decimal tokens of any size *)




